(** * api-dashboard: the client-side data-access layer and its controller

    A shallow embedding of
      - [src/lib/api.ts]: the HTTP wrapper and the resource API modules,
      - the image upload helper ([validateImageFile], [uploadImage]),
      - the [App] controller (session handling and data loading),
    followed by the properties of the specification that concern them. *)

From stdpp Require Import base option list strings pretty gmap.

Local Open Scope string_scope.
Local Set Warnings "-register-all".

(** ** JavaScript numbers

    The client never computes with numbers: it tests them for truthiness,
    reads the [length] of arrays and strings, and interpolates them into
    template strings.  The development is parametric in a carrier offering
    exactly these operations, so every statement holds for IEEE doubles. *)

Class Number := {
  number : Type;
  (** [!!n]: false for [0], [-0] and [NaN] *)
  num_truthy : number -> bool;
  (** the number denoted by a length or an integer literal *)
  num_of_nat : nat -> number;
  (** [String(n)], as used by template literals *)
  num_to_string : number -> string;
}.

(** Integer-valued numbers, used to run the model on concrete inputs. *)
Definition IntegerNumbers : Number := {|
  number := Z;
  num_truthy := fun z => negb (Z.eqb z 0);
  num_of_nat := Z.of_nat;
  num_to_string := fun z => pretty z;
|}.

(** ** Files handed over by the browser *)

Module File.
Record t := { name : string; type : string; size : N }.
End File.

(** [FormData]: the entries appended so far. *)
Inductive form_entry :=
| FormFile (f : File.t)
| FormText (s : string).

Definition FormData := list (string * form_entry).

Section Client.

Context {Num : Number}.

(** ** JavaScript values, as produced by [response.json()]

    Objects are association lists read from the front; a string stands for
    its sequence of code units. *)

Inductive value :=
| VUndefined
| VNull
| VBool (b : bool)
| VNum (n : number)
| VStr (s : string)
| VArr (elems : list value)
| VObj (props : list (string * value)).

(** Values that can be thrown.  [TypeError] and [SyntaxError] are raised by
    the runtime (property access on [null], [fetch], [response.json()]);
    their message texts are engine-defined and not modelled. *)
Inductive exn :=
| Error (message : string)
| TypeError
| SyntaxError
| Thrown (v : value).

(** [e instanceof Error] *)
Definition instanceof_Error (e : exn) : bool :=
  match e with
  | Thrown _ => false
  | _ => true
  end.

(** The completion of an expression or of an awaited promise. *)
Inductive outcome (A : Type) :=
| Return (a : A)
| Throw (e : exn).
Arguments Return {A} a.
Arguments Throw {A} e.

(** [!!v] *)
Definition truthy (v : value) : bool :=
  match v with
  | VUndefined | VNull => false
  | VBool b => b
  | VNum n => num_truthy n
  | VStr s => negb (String.eqb s "")
  | VArr _ | VObj _ => true
  end.

(** [a || b] *)
Definition js_or (a b : value) : value := if truthy a then a else b.

(** [Array.isArray(v)] *)
Definition isArray (v : value) : bool :=
  match v with
  | VArr _ => true
  | _ => false
  end.

Fixpoint lookup_prop (p : string) (props : list (string * value)) : value :=
  match props with
  | [] => VUndefined
  | (k, v) :: rest => if String.eqb k p then v else lookup_prop p rest
  end.

(** [v.p] for the property names the client reads ([success], [data],
    [urls], [pagination], [currentPage], [totalPages], [totalUrls],
    [hasNextPage], [hasPrevPage], [token], [url], [length]): none of them
    is an array index or an inherited member, so arrays and strings only
    answer to [length]. *)
Definition get (v : value) (p : string) : outcome value :=
  match v with
  | VUndefined | VNull => Throw TypeError
  | VBool _ | VNum _ => Return VUndefined
  | VStr s =>
      Return (if String.eqb p "length" then VNum (num_of_nat (String.length s))
              else VUndefined)
  | VArr elems =>
      Return (if String.eqb p "length" then VNum (num_of_nat (length elems))
              else VUndefined)
  | VObj props => Return (lookup_prop p props)
  end.

(** [v?.p] *)
Definition get_opt (v : value) (p : string) : outcome value :=
  match v with
  | VUndefined | VNull => Return VUndefined
  | _ => get v p
  end.

Definition bind_outcome {A B} (o : outcome A) (k : A -> outcome B) : outcome B :=
  match o with
  | Return a => k a
  | Throw e => Throw e
  end.

Notation "'let?' x ':=' e 'in' k" := (bind_outcome e (fun x => k))
  (at level 100, x name, e at next level, k at level 200, right associativity).

(** [Object.hasOwn(v, p)] for an object [v] with members [props]. *)
Definition has_own (p : string) (props : list (string * value)) : bool :=
  existsb (fun member => String.eqb (fst member) p) props.

(** [String(v)], the conversion [localStorage.setItem] applies to its
    value argument.  An object is converted by calling its [toString]: the
    inherited one answers ["[object Object]"]; an own [toString] member of
    a parsed body is data, not a function, and the [valueOf] tried after it
    gives no primitive either, so the conversion throws a [TypeError].  An
    array joins the conversions of its elements, left to right, with
    [null] and [undefined] converted to the empty string. *)
Fixpoint to_string (v : value) : outcome string :=
  match v with
  | VUndefined => Return "undefined"
  | VNull => Return "null"
  | VBool b => Return (if b then "true" else "false")
  | VNum n => Return (num_to_string n)
  | VStr s => Return s
  | VArr elems =>
      let item e :=
        match e with
        | VUndefined | VNull => Return ""
        | _ => to_string e
        end in
      (fix join (l : list value) : outcome string :=
         match l with
         | [] => Return ""
         | e :: rest =>
             let? first := item e in
             match rest with
             | [] => Return first
             | _ => let? others := join rest in Return (first ++ "," ++ others)
             end
         end) elems
  | VObj props =>
      if has_own "toString" props then Throw TypeError
      else Return "[object Object]"
  end.

(** ** The URL list envelope returned by [urlAPI.getAll] *)

Record pagination := {
  currentPage : value;
  totalPages : value;
  totalItems : value;
  hasNext : value;
  hasPrev : value;
}.

Record url_page := {
  data : list value;
  page_info : pagination;
}.

(** [Array.isArray(v) ? v : []] *)
Definition array_or_empty (v : value) : list value :=
  match v with
  | VArr elems => elems
  | _ => []
  end.

(** [api.ts], lines 216-244: what [urlAPI.getAll] does with the parsed
    body [result] of a successful response. *)
Definition urlAPI_normalize (page : number) (result : value) : outcome url_page :=
  let? success := get result "success" in
  let? guard := (if truthy success then get result "data" else Return success) in
  if truthy guard then
    let? result_data := get result "data" in
    let? urls := get result_data "urls" in
    let urlsData := js_or urls (VArr []) in
    let? pag := get result_data "pagination" in
    let paginationData := js_or pag (VObj []) in
    let? currentPage' := get paginationData "currentPage" in
    let? totalPages' := get paginationData "totalPages" in
    let? totalUrls := get paginationData "totalUrls" in
    let? totalItems' := (if truthy totalUrls then Return totalUrls
                         else get urlsData "length") in
    let? hasNextPage := get paginationData "hasNextPage" in
    let? hasPrevPage := get paginationData "hasPrevPage" in
    Return {| data := array_or_empty urlsData;
              page_info := {| currentPage := js_or currentPage' (VNum page);
                              totalPages := js_or totalPages' (VNum (num_of_nat 1));
                              totalItems := totalItems';
                              hasNext := js_or hasNextPage (VBool false);
                              hasPrev := js_or hasPrevPage (VBool false) |} |}
  else
    (* fallback for a direct array response (legacy support) *)
    let data := array_or_empty result in
    Return {| data := data;
              page_info := {| currentPage := VNum page;
                              totalPages := VNum (num_of_nat 1);
                              totalItems := VNum (num_of_nat (length data));
                              hasNext := VBool false;
                              hasPrev := VBool false |} |}.

(** ** Upload helper: validation *)

Record validation := {
  valid : bool;
  error : option string;
}.

Definition validateImageFile (file : File.t) : validation :=
  (* Check file type *)
  if negb (String.prefix "image/" (File.type file)) then
    {| valid := false; error := Some "File must be an image" |}
  else
    (* Check file size (max 5MB) *)
    let maxSize := (5 * 1024 * 1024)%N in
    if (maxSize <? File.size file)%N then
      {| valid := false; error := Some "File size must be less than 5MB" |}
    else
      {| valid := true; error := None |}.

(** ** Requests, responses and the network *)

(** A request body: the text [JSON.stringify(v)] or a multipart form. *)
Inductive body_init :=
| JSONText (v : value)
| FormBody (fd : FormData).

(** [body instanceof FormData] *)
Definition instanceof_FormData (b : option body_init) : bool :=
  match b with
  | Some (FormBody _) => true
  | _ => false
  end.

(** [RequestInit], restricted to the members the client sets; [None] is an
    absent member. *)
Record RequestInit := {
  method : option string;
  body : option body_init;
  headers : option (gmap string string);
  credentials : option string;
}.

Definition no_options : RequestInit :=
  {| method := None; body := None; headers := None; credentials := None |}.

(** [{ ...defaults, ...options }]: members of [options] win. *)
Definition spread (defaults options : RequestInit) : RequestInit :=
  {| method := from_option Some (method defaults) (method options);
     body := from_option Some (body defaults) (body options);
     headers := from_option Some (headers defaults) (headers options);
     credentials := from_option Some (credentials defaults) (credentials options) |}.

(** The two arguments of a [fetch] call. *)
Record request := {
  req_url : string;
  req_init : RequestInit;
}.

(** A response: its status, its body text and what [JSON.parse] makes of
    that text ([None] when it is not JSON). *)
Record response := {
  status : nat;
  text : string;
  json : option value;
}.

(** [response.ok] *)
Definition ok (r : response) : bool :=
  (200 <=? status r)%nat && (status r <=? 299)%nat.

Inductive fetch_result :=
| Resolved (r : response)
| Rejected (e : exn).

(** ** Controller state ([useState] cells of [App]) *)

Record app_state := {
  isAuthenticated : bool;
  activeSection : string;
  loading : bool;
  projects : value;
  skills : value;
  messages : value;
  urls : list value;
  urlPagination : pagination;
  currentUrlPage : number;
}.

(** ** The world the client runs in *)

Record log_entry := {
  level : string;
  label : string;
  cause : exn;
}.

Record world := {
  localStorage : gmap string string;
  (** requests handed to [fetch], oldest first *)
  sent : list request;
  console : list log_entry;
  ui : app_state;
}.

Definition with_localStorage (f : gmap string string -> gmap string string)
    (w : world) : world :=
  {| localStorage := f (localStorage w); sent := sent w;
     console := console w; ui := ui w |}.

Definition with_sent (f : list request -> list request) (w : world) : world :=
  {| localStorage := localStorage w; sent := f (sent w);
     console := console w; ui := ui w |}.

Definition with_console (f : list log_entry -> list log_entry) (w : world) : world :=
  {| localStorage := localStorage w; sent := sent w;
     console := f (console w); ui := ui w |}.

Definition with_ui (f : app_state -> app_state) (w : world) : world :=
  {| localStorage := localStorage w; sent := sent w;
     console := console w; ui := f (ui w) |}.

(** The server and the transport: the settlement of a [fetch] is a function
    of all requests issued so far, the last one being the request at hand.
    Every statement below is for an arbitrary such function; as no two
    calls see the same history, any combination of answers and failures
    is the behaviour of one. *)
Variable network : list request -> fetch_result.

(** The backend base URL, [import.meta.env.VITE_API_BASE_URL] or the
    default [http://localhost:5000/api]. *)
Variable API_BASE_URL : string.

(** ** Asynchronous computations: state and exceptions *)

Definition M (A : Type) : Type := world -> outcome A * world.

Definition ret {A} (a : A) : M A := fun w => (Return a, w).

Definition bind {A B} (m : M A) (k : A -> M B) : M B :=
  fun w =>
    match m w with
    | (Return a, w') => k a w'
    | (Throw e, w') => (Throw e, w')
    end.

Definition throw {A} (e : exn) : M A := fun w => (Throw e, w).

(** [try { m } catch (e) { handler e }] *)
Definition try_catch {A} (m : M A) (handler : exn -> M A) : M A :=
  fun w =>
    match m w with
    | (Return a, w') => (Return a, w')
    | (Throw e, w') => handler e w'
    end.

Definition lift {A} (o : outcome A) : M A := fun w => (o, w).

Notation "x <- m ;; k" := (bind m (fun x => k))
  (at level 100, m at next level, k at level 200, right associativity).
Notation "m ;;; k" := (bind m (fun _ => k))
  (at level 100, k at level 200, right associativity).

Definition localStorage_getItem (key : string) : M (option string) :=
  fun w => (Return (localStorage w !! key), w).

Definition localStorage_setItem (key val : string) : M unit :=
  fun w => (Return tt, with_localStorage (insert key val) w).

Definition localStorage_removeItem (key : string) : M unit :=
  fun w => (Return tt, with_localStorage (delete key) w).

Definition console_log (lvl lbl : string) (e : exn) : M unit :=
  fun w => (Return tt,
            with_console (fun c => (c ++ [{| level := lvl; label := lbl; cause := e |}])%list) w).

Definition fetch (url : string) (init : RequestInit) : M response :=
  fun w =>
    let w' := with_sent (fun s => (s ++ [{| req_url := url; req_init := init |}])%list) w in
    match network (sent w') with
    | Resolved r => (Return r, w')
    | Rejected e => (Throw e, w')
    end.

(** [response.json()] *)
Definition response_json (r : response) : M value :=
  match json r with
  | Some v => ret v
  | None => throw SyntaxError
  end.

(** ** [api.ts]: the HTTP wrapper *)

Definition getAuthToken : M (option string) :=
  localStorage_getItem "authToken".

Definition createHeaders (additionalHeaders : gmap string string) (isFormData : bool)
    : M (gmap string string) :=
  let headers := additionalHeaders in
  let headers :=
    if negb isFormData then <["Content-Type" := "application/json"]> headers
    else headers in
  token <- getAuthToken ;;
  let headers :=
    match token with
    | Some t => if negb (String.eqb t "") then <["Authorization" := "Bearer " ++ t]> headers
                else headers
    | None => headers
    end in
  ret headers.

Definition apiRequest (url : string) (options : RequestInit) : M response :=
  let isFormData := instanceof_FormData (body options) in
  created <- createHeaders (default ∅ (headers options)) isFormData ;;
  let defaultOptions :=
    spread {| method := None; body := None;
              headers := Some created;
              credentials := Some "include" |}
           options in
  fetch url defaultOptions.

(** ** [api.ts]: authentication *)

Definition authAPI_login (email password : string) : M value :=
  response <- apiRequest (API_BASE_URL ++ "/auth/login")
    {| method := Some "POST";
       body := Some (JSONText (VObj [("email", VStr email); ("password", VStr password)]));
       headers := None; credentials := None |} ;;
  if negb (ok response) then throw (Error "Login failed")
  else
    data <- response_json response ;;
    token <- lift (get data "token") ;;
    (if truthy token then
       (* the value is converted to a string before it is stored *)
       stored <- lift (to_string token) ;;
       localStorage_setItem "authToken" stored
     else ret tt) ;;;
    ret data.

Definition authAPI_logout : M unit :=
  localStorage_removeItem "authToken" ;;;
  try_catch
    (_ <- apiRequest (API_BASE_URL ++ "/auth/logout")
       {| method := Some "POST"; body := None; headers := None; credentials := None |} ;;
     ret tt)
    (fun error => console_log "warn" "Logout endpoint error:" error).

(** ** [api.ts]: the resource modules *)

(** The argument of a create or update call: a plain object or a
    pre-built multipart form. *)
Inductive payload :=
| Plain (v : value)
| Multipart (fd : FormData).

(** [x instanceof FormData ? x : JSON.stringify(x)] *)
Definition payload_body (x : payload) : body_init :=
  match x with
  | Multipart fd => FormBody fd
  | Plain v => JSONText v
  end.

Definition projectsAPI_getAll : M value :=
  response <- apiRequest (API_BASE_URL ++ "/portfolio/projects") no_options ;;
  if negb (ok response) then throw (Error "Failed to fetch projects")
  else
    data <- response_json response ;;
    items <- lift (get data "data") ;;
    ret (js_or items (VArr [])).

Definition projectsAPI_create (project : payload) : M value :=
  let body := payload_body project in
  response <- apiRequest (API_BASE_URL ++ "/portfolio/projects")
    {| method := Some "POST"; body := Some body; headers := None; credentials := None |} ;;
  if negb (ok response) then throw (Error "Failed to create project")
  else response_json response.

Definition projectsAPI_update (id : string) (project : payload) : M value :=
  let body := payload_body project in
  response <- apiRequest (API_BASE_URL ++ "/portfolio/projects/" ++ id)
    {| method := Some "PUT"; body := Some body; headers := None; credentials := None |} ;;
  if negb (ok response) then throw (Error "Failed to update project")
  else response_json response.

Definition projectsAPI_delete (id : string) : M value :=
  response <- apiRequest (API_BASE_URL ++ "/portfolio/projects/" ++ id)
    {| method := Some "DELETE"; body := None; headers := None; credentials := None |} ;;
  if negb (ok response) then throw (Error "Failed to delete project")
  else response_json response.

Definition skillsAPI_getAll : M value :=
  response <- apiRequest (API_BASE_URL ++ "/portfolio/skills") no_options ;;
  if negb (ok response) then throw (Error "Failed to fetch skills")
  else
    data <- response_json response ;;
    items <- lift (get data "data") ;;
    ret (js_or items (VArr [])).

Definition skillsAPI_create (skill : payload) : M value :=
  let body := payload_body skill in
  response <- apiRequest (API_BASE_URL ++ "/portfolio/skills")
    {| method := Some "POST"; body := Some body; headers := None; credentials := None |} ;;
  if negb (ok response) then throw (Error "Failed to create skill")
  else response_json response.

Definition skillsAPI_update (id : string) (skill : payload) : M value :=
  let body := payload_body skill in
  response <- apiRequest (API_BASE_URL ++ "/portfolio/skills/" ++ id)
    {| method := Some "PUT"; body := Some body; headers := None; credentials := None |} ;;
  if negb (ok response) then throw (Error "Failed to update skill")
  else response_json response.

Definition skillsAPI_delete (id : string) : M value :=
  response <- apiRequest (API_BASE_URL ++ "/portfolio/skills/" ++ id)
    {| method := Some "DELETE"; body := None; headers := None; credentials := None |} ;;
  if negb (ok response) then throw (Error "Failed to delete skill")
  else response_json response.

Definition messagesAPI_getAll : M value :=
  response <- apiRequest (API_BASE_URL ++ "/portfolio/contact") no_options ;;
  if negb (ok response) then throw (Error "Failed to fetch messages")
  else
    data <- response_json response ;;
    items <- lift (get data "data") ;;
    ret (js_or items (VArr [])).

Definition urlAPI_getAll (page limit : number) : M url_page :=
  response <- apiRequest
    (API_BASE_URL ++ "/url?page=" ++ num_to_string page ++ "&limit=" ++ num_to_string limit)
    no_options ;;
  if negb (ok response) then throw (Error "Failed to fetch URLs")
  else
    result <- response_json response ;;
    lift (urlAPI_normalize page result).

Definition urlAPI_create (url : value) : M value :=
  response <- apiRequest (API_BASE_URL ++ "/url")
    {| method := Some "POST"; body := Some (JSONText url);
       headers := None; credentials := None |} ;;
  if negb (ok response) then throw (Error "Failed to create short URL")
  else response_json response.

Definition urlAPI_update (id : string) (url : value) : M value :=
  response <- apiRequest (API_BASE_URL ++ "/url/" ++ id)
    {| method := Some "PUT"; body := Some (JSONText url);
       headers := None; credentials := None |} ;;
  if negb (ok response) then throw (Error "Failed to update URL")
  else response_json response.

Definition urlAPI_delete (id : string) : M value :=
  response <- apiRequest (API_BASE_URL ++ "/url/" ++ id)
    {| method := Some "DELETE"; body := None; headers := None; credentials := None |} ;;
  if negb (ok response) then throw (Error "Failed to delete URL")
  else response_json response.

(** ** Upload helper: [uploadImage] *)

Definition uploadImage (file : File.t) : M value :=
  let validation := validateImageFile file in
  if negb (valid validation) then throw (Error (default "" (error validation)))
  else
    let formData : FormData := [("image", FormFile file)] in
    try_catch
      (response <- fetch "/api/upload"
         {| method := Some "POST"; body := Some (FormBody formData);
            headers := None; credentials := None |} ;;
       if negb (ok response) then
         let errorText := text response in
         throw (Error ("Upload failed: " ++ pretty (status response) ++ " " ++ errorText))
       else
         result <- response_json response ;;
         url <- lift (get result "url") ;;
         imageUrl <- (if truthy url then ret url
                      else (result_data <- lift (get result "data") ;;
                            lift (get_opt result_data "url"))) ;;
         if negb (truthy imageUrl) then throw (Error "No image URL returned from server")
         else ret imageUrl)
      (fun error =>
         if instanceof_Error error then throw error
         else throw (Error "Failed to upload image")).

(** ** The [App] controller *)

Definition single_page : pagination :=
  {| currentPage := VNum (num_of_nat 1);
     totalPages := VNum (num_of_nat 1);
     totalItems := VNum (num_of_nat 0);
     hasNext := VBool false;
     hasPrev := VBool false |}.

(** The [useState] initialisers. *)
Definition initial_state : app_state :=
  {| isAuthenticated := false; activeSection := "overview"; loading := true;
     projects := VArr []; skills := VArr []; messages := VArr []; urls := [];
     urlPagination := single_page; currentUrlPage := num_of_nat 1 |}.

(** The state setters returned by [useState]. *)
Definition setIsAuthenticated (x : bool) : M unit :=
  fun w => (Return tt, with_ui (fun s =>
    {| isAuthenticated := x; activeSection := activeSection s; loading := loading s;
       projects := projects s; skills := skills s; messages := messages s;
       urls := urls s; urlPagination := urlPagination s; currentUrlPage := currentUrlPage s |}) w).

Definition setActiveSection (x : string) : M unit :=
  fun w => (Return tt, with_ui (fun s =>
    {| isAuthenticated := isAuthenticated s; activeSection := x; loading := loading s;
       projects := projects s; skills := skills s; messages := messages s;
       urls := urls s; urlPagination := urlPagination s; currentUrlPage := currentUrlPage s |}) w).

Definition setLoading (x : bool) : M unit :=
  fun w => (Return tt, with_ui (fun s =>
    {| isAuthenticated := isAuthenticated s; activeSection := activeSection s; loading := x;
       projects := projects s; skills := skills s; messages := messages s;
       urls := urls s; urlPagination := urlPagination s; currentUrlPage := currentUrlPage s |}) w).

Definition setProjects (x : value) : M unit :=
  fun w => (Return tt, with_ui (fun s =>
    {| isAuthenticated := isAuthenticated s; activeSection := activeSection s; loading := loading s;
       projects := x; skills := skills s; messages := messages s;
       urls := urls s; urlPagination := urlPagination s; currentUrlPage := currentUrlPage s |}) w).

Definition setSkills (x : value) : M unit :=
  fun w => (Return tt, with_ui (fun s =>
    {| isAuthenticated := isAuthenticated s; activeSection := activeSection s; loading := loading s;
       projects := projects s; skills := x; messages := messages s;
       urls := urls s; urlPagination := urlPagination s; currentUrlPage := currentUrlPage s |}) w).

Definition setMessages (x : value) : M unit :=
  fun w => (Return tt, with_ui (fun s =>
    {| isAuthenticated := isAuthenticated s; activeSection := activeSection s; loading := loading s;
       projects := projects s; skills := skills s; messages := x;
       urls := urls s; urlPagination := urlPagination s; currentUrlPage := currentUrlPage s |}) w).

Definition setUrls (x : list value) : M unit :=
  fun w => (Return tt, with_ui (fun s =>
    {| isAuthenticated := isAuthenticated s; activeSection := activeSection s; loading := loading s;
       projects := projects s; skills := skills s; messages := messages s;
       urls := x; urlPagination := urlPagination s; currentUrlPage := currentUrlPage s |}) w).

Definition setUrlPagination (x : pagination) : M unit :=
  fun w => (Return tt, with_ui (fun s =>
    {| isAuthenticated := isAuthenticated s; activeSection := activeSection s; loading := loading s;
       projects := projects s; skills := skills s; messages := messages s;
       urls := urls s; urlPagination := x; currentUrlPage := currentUrlPage s |}) w).

Definition setCurrentUrlPage (x : number) : M unit :=
  fun w => (Return tt, with_ui (fun s =>
    {| isAuthenticated := isAuthenticated s; activeSection := activeSection s; loading := loading s;
       projects := projects s; skills := skills s; messages := messages s;
       urls := urls s; urlPagination := urlPagination s; currentUrlPage := x |}) w).

(** Handlers are closures of one render: where the source reads a state
    variable, the model reads it from [render], the state the handler was
    created in. *)

Definition loadUrlsData (page : number) : M unit :=
  try_catch
    (urlsResponse <- urlAPI_getAll page (num_of_nat 20) ;;
     setUrls (data urlsResponse) ;;;
     setUrlPagination (page_info urlsResponse))
    (fun error =>
       console_log "error" "Failed to load URLs:" error ;;;
       setUrls [] ;;;
       setUrlPagination single_page).

(** [Promise.all] over three promises that cannot reject: the three calls
    start in the order written and each failure is replaced by [[]] on its
    own.  The model runs them one after the other. *)
Definition loadDashboardData (render : app_state) : M unit :=
  try_catch
    (projectsData <- try_catch projectsAPI_getAll (fun _ => ret (VArr [])) ;;
     skillsData <- try_catch skillsAPI_getAll (fun _ => ret (VArr [])) ;;
     messagesData <- try_catch messagesAPI_getAll (fun _ => ret (VArr [])) ;;
     setProjects projectsData ;;;
     setSkills skillsData ;;;
     setMessages messagesData ;;;
     (* Load URLs separately with pagination *)
     loadUrlsData (currentUrlPage render))
    (fun error => console_log "error" "Failed to load dashboard data:" error).

Definition handleUrlPageChange (page : number) : M unit :=
  setCurrentUrlPage page ;;;
  loadUrlsData page.

Definition handleLogin (email password : string) : M unit :=
  try_catch
    (authAPI_login email password ;;;
     localStorage_setItem "isAuthenticated" "true" ;;;
     setIsAuthenticated true)
    (fun error =>
       console_log "error" "Login failed:" error ;;;
       throw error).

Definition handleLogout : M unit :=
  try_catch authAPI_logout
    (fun error => console_log "error" "Logout error:" error) ;;;
  localStorage_removeItem "isAuthenticated" ;;;
  setIsAuthenticated false ;;;
  setActiveSection "overview".

(** Project handlers *)
Definition handleAddProject (render : app_state) (projectData : payload) : M unit :=
  projectsAPI_create projectData ;;;
  loadDashboardData render.

Definition handleUpdateProject (render : app_state) (id : string) (projectData : payload)
    : M unit :=
  projectsAPI_update id projectData ;;;
  loadDashboardData render.

Definition handleDeleteProject (render : app_state) (id : string) : M unit :=
  projectsAPI_delete id ;;;
  loadDashboardData render.

(** Skill handlers *)
Definition handleAddSkill (render : app_state) (skillData : payload) : M unit :=
  skillsAPI_create skillData ;;;
  loadDashboardData render.

Definition handleUpdateSkill (render : app_state) (id : string) (skillData : payload)
    : M unit :=
  skillsAPI_update id skillData ;;;
  loadDashboardData render.

Definition handleDeleteSkill (render : app_state) (id : string) : M unit :=
  skillsAPI_delete id ;;;
  loadDashboardData render.

(** URL handlers *)
Definition handleAddUrl (render : app_state) (urlData : value) : M unit :=
  urlAPI_create urlData ;;;
  loadUrlsData (currentUrlPage render).

Definition handleUpdateUrl (render : app_state) (id : string) (urlData : value) : M unit :=
  urlAPI_update id urlData ;;;
  loadUrlsData (currentUrlPage render).

Definition handleDeleteUrl (render : app_state) (id : string) : M unit :=
  urlAPI_delete id ;;;
  loadUrlsData (currentUrlPage render).

(** The first [useEffect]: runs once, when [App] mounts. *)
Definition effect_mount : M unit :=
  stored <- localStorage_getItem "isAuthenticated" ;;
  let isLoggedIn := bool_decide (stored = Some "true") in
  setIsAuthenticated isLoggedIn ;;;
  setLoading false.

(** The second [useEffect], with dependency [[isAuthenticated]]. *)
Definition effect_isAuthenticated (render : app_state) : M unit :=
  if isAuthenticated render then loadDashboardData render else ret tt.

(** One turn of the controller: the handler runs as a closure of the
    current render; the state it leaves is rendered, and the second effect
    runs again when [isAuthenticated] differs from the previous render. *)
Definition dispatch {A} (handler : app_state -> M A) : M A :=
  fun w =>
    let '(res, w1) := handler (ui w) w in
    if Bool.eqb (isAuthenticated (ui w)) (isAuthenticated (ui w1)) then (res, w1)
    else (res, snd (effect_isAuthenticated (ui w1) w1)).

(** Mounting [App]: both effects run after the first render. *)
Definition mount : M unit :=
  dispatch (fun render => effect_mount ;;; effect_isAuthenticated render).

End Client.

Arguments Return {Num A} a.
Arguments Throw {Num A} e.

(** * Vocabulary of the statements *)

Section Vocabulary.

Context {Num : Number}.
Variable network : list request -> fetch_result.
Variable API_BASE_URL : string.

(** ** The URL list envelope *)

(** The synthetic single-page envelope of the fallback branch. *)
Definition synthetic (page : number) (n : nat) : pagination :=
  {| currentPage := VNum page;
     totalPages := VNum (num_of_nat 1);
     totalItems := VNum (num_of_nat n);
     hasNext := VBool false;
     hasPrev := VBool false |}.

(** All five fields of an envelope hold a value. *)
Definition all_defined (p : pagination) : Prop :=
  currentPage p <> VUndefined /\ totalPages p <> VUndefined /\
  totalItems p <> VUndefined /\ hasNext p <> VUndefined /\
  hasPrev p <> VUndefined.

(** The test [result.success && result.data] that selects the branch for
    the current, nested shape. *)
Definition nested_shape (result : value) : bool :=
  match get result "success", get result "data" with
  | Return success, Return d => truthy success && truthy d
  | _, _ => false
  end.

(** ** Requests *)

(** The headers [createHeaders] computes in world [w]. *)
Definition headers_in (w : world) (additional : gmap string string)
    (isFormData : bool) : gmap string string :=
  match fst (createHeaders additional isFormData w) with
  | Return h => h
  | Throw _ => additional
  end.

(** The request [apiRequest url options] hands to [fetch] in world [w]. *)
Definition request_in (w : world) (url : string) (options : RequestInit) : request :=
  {| req_url := url;
     req_init :=
       spread {| method := None; body := None;
                 headers := Some (headers_in w (default ∅ (headers options))
                                    (instanceof_FormData (body options)));
                 credentials := Some "include" |}
              options |}.

(** World [w] after one more request. *)
Definition after_request (w : world) (req : request) : world :=
  with_sent (fun s => (s ++ [req])%list) w.

(** How an awaited [fetch] completes. *)
Definition settle (res : fetch_result) : outcome response :=
  match res with
  | Resolved r => Return r
  | Rejected e => Throw e
  end.

(** The stored token, as [createHeaders] tests it: [None] when the key is
    absent or holds the empty string. *)
Definition stored_token (w : world) : option string :=
  match localStorage w !! "authToken" with
  | Some t => if String.eqb t "" then None else Some t
  | None => None
  end.

(** The [Authorization] header of a request, if it has one. *)
Definition authorization (req : request) : option string :=
  match headers (req_init req) with
  | Some h => h !! "Authorization"
  | None => None
  end.

(** Target and method of the requests issued between [w] and [w']. *)
Definition issued (w w' : world) : list (string * option string) :=
  map (fun req => (req_url req, method (req_init req)))
      (drop (length (sent w)) (sent w')).

(** ** The calls of the resource modules *)

Definition void {A} (m : M A) : M unit := bind m (fun _ => ret tt).

Inductive api_call :=
| Login (email password : string)
| ProjectsGetAll
| ProjectsCreate (project : payload)
| ProjectsUpdate (id : string) (project : payload)
| ProjectsDelete (id : string)
| SkillsGetAll
| SkillsCreate (skill : payload)
| SkillsUpdate (id : string) (skill : payload)
| SkillsDelete (id : string)
| MessagesGetAll
| UrlsGetAll (page limit : number)
| UrlsCreate (url : value)
| UrlsUpdate (id : string) (url : value)
| UrlsDelete (id : string).

Definition perform (c : api_call) : M unit :=
  match c with
  | Login email password => void (authAPI_login network API_BASE_URL email password)
  | ProjectsGetAll => void (projectsAPI_getAll network API_BASE_URL)
  | ProjectsCreate project => void (projectsAPI_create network API_BASE_URL project)
  | ProjectsUpdate id project => void (projectsAPI_update network API_BASE_URL id project)
  | ProjectsDelete id => void (projectsAPI_delete network API_BASE_URL id)
  | SkillsGetAll => void (skillsAPI_getAll network API_BASE_URL)
  | SkillsCreate skill => void (skillsAPI_create network API_BASE_URL skill)
  | SkillsUpdate id skill => void (skillsAPI_update network API_BASE_URL id skill)
  | SkillsDelete id => void (skillsAPI_delete network API_BASE_URL id)
  | MessagesGetAll => void (messagesAPI_getAll network API_BASE_URL)
  | UrlsGetAll page limit => void (urlAPI_getAll network API_BASE_URL page limit)
  | UrlsCreate url => void (urlAPI_create network API_BASE_URL url)
  | UrlsUpdate id url => void (urlAPI_update network API_BASE_URL id url)
  | UrlsDelete id => void (urlAPI_delete network API_BASE_URL id)
  end.

(** Target and options each call passes to the wrapper. *)
Definition call_url (c : api_call) : string :=
  match c with
  | Login _ _ => API_BASE_URL ++ "/auth/login"
  | ProjectsGetAll | ProjectsCreate _ => API_BASE_URL ++ "/portfolio/projects"
  | ProjectsUpdate id _ | ProjectsDelete id =>
      API_BASE_URL ++ "/portfolio/projects/" ++ id
  | SkillsGetAll | SkillsCreate _ => API_BASE_URL ++ "/portfolio/skills"
  | SkillsUpdate id _ | SkillsDelete id => API_BASE_URL ++ "/portfolio/skills/" ++ id
  | MessagesGetAll => API_BASE_URL ++ "/portfolio/contact"
  | UrlsGetAll page limit =>
      API_BASE_URL ++ "/url?page=" ++ num_to_string page
        ++ "&limit=" ++ num_to_string limit
  | UrlsCreate _ => API_BASE_URL ++ "/url"
  | UrlsUpdate id _ | UrlsDelete id => API_BASE_URL ++ "/url/" ++ id
  end.

Definition with_method (m : string) (b : option body_init) : RequestInit :=
  {| method := Some m; body := b; headers := None; credentials := None |}.

Definition call_options (c : api_call) : RequestInit :=
  match c with
  | Login email password =>
      with_method "POST"
        (Some (JSONText (VObj [("email", VStr email); ("password", VStr password)])))
  | ProjectsGetAll | SkillsGetAll | MessagesGetAll | UrlsGetAll _ _ => no_options
  | ProjectsCreate x | SkillsCreate x => with_method "POST" (Some (payload_body x))
  | ProjectsUpdate _ x | SkillsUpdate _ x => with_method "PUT" (Some (payload_body x))
  | UrlsCreate url => with_method "POST" (Some (JSONText url))
  | UrlsUpdate _ url => with_method "PUT" (Some (JSONText url))
  | ProjectsDelete _ | SkillsDelete _ | UrlsDelete _ => with_method "DELETE" None
  end.

(** The request call [c] issues in world [w]. *)
Definition call_request (w : world) (c : api_call) : request :=
  request_in w (call_url c) (call_options c).

(** The request [authAPI.logout] issues in world [w], built after the
    token has been removed, and what it writes to the console. *)
Definition logout_request (w : world) : request :=
  request_in (with_localStorage (delete "authToken") w)
    (API_BASE_URL ++ "/auth/logout") (with_method "POST" None).

Definition logout_log (res : fetch_result) : list log_entry :=
  match res with
  | Rejected e => [{| level := "warn"; label := "Logout endpoint error:"; cause := e |}]
  | Resolved _ => []
  end.

(** The generic, operation-naming message of each call. *)
Definition failure_message (c : api_call) : string :=
  match c with
  | Login _ _ => "Login failed"
  | ProjectsGetAll => "Failed to fetch projects"
  | ProjectsCreate _ => "Failed to create project"
  | ProjectsUpdate _ _ => "Failed to update project"
  | ProjectsDelete _ => "Failed to delete project"
  | SkillsGetAll => "Failed to fetch skills"
  | SkillsCreate _ => "Failed to create skill"
  | SkillsUpdate _ _ => "Failed to update skill"
  | SkillsDelete _ => "Failed to delete skill"
  | MessagesGetAll => "Failed to fetch messages"
  | UrlsGetAll _ _ => "Failed to fetch URLs"
  | UrlsCreate _ => "Failed to create short URL"
  | UrlsUpdate _ _ => "Failed to update URL"
  | UrlsDelete _ => "Failed to delete URL"
  end.

(** ** The mutation handlers of the controller *)

Inductive mutation :=
| AddProject (projectData : payload)
| UpdateProject (id : string) (projectData : payload)
| DeleteProject (id : string)
| AddSkill (skillData : payload)
| UpdateSkill (id : string) (skillData : payload)
| DeleteSkill (id : string)
| AddUrl (urlData : value)
| UpdateUrl (id : string) (urlData : value)
| DeleteUrl (id : string).

Definition handle (render : app_state) (m : mutation) : M unit :=
  match m with
  | AddProject d => handleAddProject network API_BASE_URL render d
  | UpdateProject id d => handleUpdateProject network API_BASE_URL render id d
  | DeleteProject id => handleDeleteProject network API_BASE_URL render id
  | AddSkill d => handleAddSkill network API_BASE_URL render d
  | UpdateSkill id d => handleUpdateSkill network API_BASE_URL render id d
  | DeleteSkill id => handleDeleteSkill network API_BASE_URL render id
  | AddUrl d => handleAddUrl network API_BASE_URL render d
  | UpdateUrl id d => handleUpdateUrl network API_BASE_URL render id d
  | DeleteUrl id => handleDeleteUrl network API_BASE_URL render id
  end.

(** The API call a handler starts with. *)
Definition mutation_call (m : mutation) : api_call :=
  match m with
  | AddProject d => ProjectsCreate d
  | UpdateProject id d => ProjectsUpdate id d
  | DeleteProject id => ProjectsDelete id
  | AddSkill d => SkillsCreate d
  | UpdateSkill id d => SkillsUpdate id d
  | DeleteSkill id => SkillsDelete id
  | AddUrl d => UrlsCreate d
  | UpdateUrl id d => UrlsUpdate id d
  | DeleteUrl id => UrlsDelete id
  end.

Definition is_url_mutation (m : mutation) : bool :=
  match m with
  | AddUrl _ | UpdateUrl _ _ | DeleteUrl _ => true
  | _ => false
  end.

(** The request [uploadImage] issues for a file. *)
Definition upload_request (file : File.t) : request :=
  {| req_url := "/api/upload";
     req_init := {| method := Some "POST";
                    body := Some (FormBody [("image", FormFile file)]);
                    headers := None; credentials := None |} |}.

(** ** Reloads *)

Definition projects_target : string := API_BASE_URL ++ "/portfolio/projects".
Definition skills_target : string := API_BASE_URL ++ "/portfolio/skills".
Definition messages_target : string := API_BASE_URL ++ "/portfolio/contact".
Definition urls_target (page : number) : string :=
  API_BASE_URL ++ "/url?page=" ++ num_to_string page
    ++ "&limit=" ++ num_to_string (num_of_nat 20).

(** The [GET] requests of a reload of the URL list alone, and of all four
    lists. *)
Definition reload_urls (page : number) : list (string * option string) :=
  [(urls_target page, None)].

Definition reload_all (page : number) : list (string * option string) :=
  [(projects_target, None); (skills_target, None); (messages_target, None);
   (urls_target page, None)].

(** What a list call wrapped in [.catch(() => [])] yields for a given
    settlement of its request. *)
Definition list_of_answer (res : fetch_result) : value :=
  match res with
  | Resolved r =>
      if ok r then
        match json r with
        | Some d =>
            match get d "data" with
            | Return items => js_or items (VArr [])
            | Throw _ => VArr []
            end
        | None => VArr []
        end
      else VArr []
  | Rejected _ => VArr []
  end.

(** What [loadUrlsData page] leaves as the URL list and its envelope for a
    given settlement of its request: those [urlAPI.getAll] makes of the
    answer, and the empty single page when the call failed in any way. *)
Definition empty_page : url_page := {| data := []; page_info := single_page |}.

Definition page_of_answer (page : number) (res : fetch_result) : url_page :=
  match res with
  | Resolved r =>
      if ok r then
        match json r with
        | Some result =>
            match urlAPI_normalize page result with
            | Return p => p
            | Throw _ => empty_page
            end
        | None => empty_page
        end
      else empty_page
  | Rejected _ => empty_page
  end.

(** Between [w] and [w'] the URL list alone was reloaded at [page]: the
    one request was issued, the list and its envelope are what its answer
    yields, and the other three lists are as they were. *)
Definition urls_reloaded (page : number) (w w' : world) : Prop :=
  let g := request_in w (urls_target page) no_options in
  issued w w' = reload_urls page /\
  urls (ui w') = data (page_of_answer page (network (sent w ++ [g])%list)) /\
  urlPagination (ui w') = page_info (page_of_answer page (network (sent w ++ [g])%list)) /\
  projects (ui w') = projects (ui w) /\
  skills (ui w') = skills (ui w) /\
  messages (ui w') = messages (ui w).

(** Between [w] and [w'] all four lists were reloaded, the URL list at
    [page]: the four requests were issued in this order, and every list is
    what the answer to its own request yields. *)
Definition all_reloaded (page : number) (w w' : world) : Prop :=
  let g1 := request_in w projects_target no_options in
  let g2 := request_in w skills_target no_options in
  let g3 := request_in w messages_target no_options in
  let g4 := request_in w (urls_target page) no_options in
  issued w w' = reload_all page /\
  projects (ui w') = list_of_answer (network (sent w ++ [g1])%list) /\
  skills (ui w') = list_of_answer (network (sent w ++ [g1; g2])%list) /\
  messages (ui w') = list_of_answer (network (sent w ++ [g1; g2; g3])%list) /\
  urls (ui w') = data (page_of_answer page (network (sent w ++ [g1; g2; g3; g4])%list)) /\
  urlPagination (ui w') =
    page_info (page_of_answer page (network (sent w ++ [g1; g2; g3; g4])%list)).

End Vocabulary.


(** * Concrete inputs

    Worlds, servers and requests on which the model is run, with numbers
    taken to be integers. *)

Definition exactly_5MiB_png : File.t :=
  {| File.name := "photo.png"; File.type := "image/png";
     File.size := 5 * 1024 * 1024 |}.

Definition notes_txt : File.t :=
  {| File.name := "notes.txt"; File.type := "text/plain"; File.size := 120 |}.

(** Options with members of their own to override. *)
Definition overriding_options {Num : Number} : RequestInit :=
  {| method := Some "POST";
     body := Some (JSONText (VObj []));
     headers := Some {["X-Requested-With" := "XMLHttpRequest"]};
     credentials := Some "omit" |}.

(** A server that gives every request the same response. *)
Definition answering {Num : Number} (r : response) : list request -> fetch_result :=
  fun _ => Resolved r.

(** A nested envelope whose [urls] member is an object, not an array. *)
Definition urls_not_an_array {Num : Number} : value :=
  VObj [("success", VBool true); ("data", VObj [("urls", VObj [])])].

(** An integer, as a number of the integer carrier. *)
Definition int (z : Z) : @number IntegerNumbers := z.

Definition localhost : string := "http://localhost:5000/api".

(** The browser right after the page is opened, nothing stored. *)
Definition fresh_world : @world IntegerNumbers :=
  {| localStorage := ∅; sent := []; console := []; ui := initial_state |}.

(** A server in trouble: status 500 and its own error report. *)
Definition failing_server : list (@request IntegerNumbers) -> fetch_result :=
  answering {| status := 500;
               text := "E11000 duplicate key error collection: portfolio.projects";
               json := Some (VObj [("error", VStr "E11000 duplicate key error")]) |}.

(** A healthy backend: a token on login, three pages of URLs, and empty
    lists elsewhere. *)
Definition three_pages : @value IntegerNumbers :=
  VObj [("success", VBool true);
        ("data", VObj [("urls", VArr []);
                       ("pagination", VObj [("totalPages", VNum (int 3));
                                            ("totalUrls", VNum (int 45));
                                            ("hasNextPage", VBool true)])])].

Definition demo_server (history : list (@request IntegerNumbers)) : fetch_result :=
  match last history with
  | Some req =>
      if String.eqb (req_url req) (localhost ++ "/auth/login") then
        Resolved {| status := 200; text := "";
                    json := Some (VObj [("token", VStr "t0k3n")]) |}
      else if String.prefix (localhost ++ "/url?") (req_url req) then
        Resolved {| status := 200; text := ""; json := Some three_pages |}
      else
        Resolved {| status := 200; text := ""; json := Some (VObj [("data", VArr [])]) |}
  | None => Rejected TypeError
  end.



(** What the project form sends for a new project of which only the
    title and the description were typed in. *)
Definition new_project : @payload IntegerNumbers :=
  Multipart [("title", FormText "Portfolio"); ("description", FormText "My site");
             ("demoLink", FormText ""); ("sourceCodeLink", FormText "")].

(** ** A backend with a memory, and a signed-in operator *)

Definition json_ok (body : @value IntegerNumbers) : @response IntegerNumbers :=
  {| status := 200; text := ""; json := Some body |}.

(** Whether a request with this method for this target is in the history. *)
Definition asked (verb target : string) (history : list (@request IntegerNumbers)) : bool :=
  existsb (fun req =>
             String.eqb (req_url req) target &&
             match method (req_init req) with
             | Some v => String.eqb v verb
             | None => false
             end)
          history.

Definition short_url (id short full : string) : @value IntegerNumbers :=
  VObj [("_id", VStr id); ("shortenUrl", VStr short); ("fullUrl", VStr full);
        ("clicks", VNum (int 0))].

Definition docs_url : @value IntegerNumbers :=
  short_url "66f0" "docs" "https://example.com/docs".

Definition blog_url : @value IntegerNumbers :=
  short_url "66f1" "blog" "https://example.com/blog".

Definition made_url : @value IntegerNumbers :=
  short_url "66f2" "x7Kq" "https://example.com".

(** The nested envelope of a page of a list of 22 rows, two pages long. *)
Definition listing (rows : list (@value IntegerNumbers)) : @value IntegerNumbers :=
  VObj [("success", VBool true);
        ("data", VObj [("urls", VArr rows);
                       ("pagination",
                        VObj [("totalPages", VNum (int 2));
                              ("totalUrls", VNum (int 22));
                              ("hasNextPage", VBool true)])])].

Definition stored_project : @value IntegerNumbers :=
  VObj [("_id", VStr "p1"); ("name", VStr "Portfolio"); ("description", VStr "My site")].

Definition duplicate_key : @response IntegerNumbers :=
  {| status := 500;
     text := "E11000 duplicate key error collection: portfolio.projects";
     json := Some (VObj [("error", VStr "E11000 duplicate key error")]) |}.

(** A backend that remembers what it was asked: the URL list has the rows
    [66f0] and [66f1], loses [66f0] once its deletion was asked for and
    gains a row once a creation was asked for; the project list holds a
    project once its creation was asked for.  With [accepting] false it
    answers every project creation with status 500. *)
Definition backend (accepting : bool) (history : list (@request IntegerNumbers))
    : fetch_result :=
  match last history with
  | Some req =>
      let target := req_url req in
      if String.eqb target (localhost ++ "/auth/login") then
        Resolved (json_ok (VObj [("token", VStr "t0k3n")]))
      else if String.prefix (localhost ++ "/url?") target then
        Resolved (json_ok (listing
          ((if asked "DELETE" (localhost ++ "/url/66f0") history
            then [blog_url] else [docs_url; blog_url])
           ++ (if asked "POST" (localhost ++ "/url") history then [made_url] else []))%list))
      else if String.eqb target (localhost ++ "/portfolio/projects") then
        match method (req_init req) with
        | Some _ =>
            if accepting then Resolved (json_ok (VObj [("success", VBool true)]))
            else Resolved duplicate_key
        | None =>
            Resolved (json_ok (VObj [("data",
              VArr (if accepting && asked "POST" (localhost ++ "/portfolio/projects") history
                    then [stored_project] else []))]))
        end
      else Resolved (json_ok (VObj [("data", VArr [])]))
  | None => Rejected TypeError
  end.

(** The operator has opened the page and logged in. *)
Definition signed_in (server : list (@request IntegerNumbers) -> fetch_result)
    : @world IntegerNumbers :=
  let w0 := snd (mount server localhost fresh_world) in
  snd (dispatch server localhost
         (fun _ => handleLogin server localhost "admin@example.com" "secret") w0).

(** ... and has gone to one of the screens. *)
Definition on_screen (server : list (@request IntegerNumbers) -> fetch_result)
    (screen : string) : @world IntegerNumbers :=
  snd (dispatch server localhost (fun _ => setActiveSection screen) (signed_in server)).

(** ** The claims that do not hold as stated *)

(** "Every project or skill mutation handler triggers a reload of all four
    resource lists": the four list requests end the requests issued by the
    handler. *)
Definition reloads_all_lists {Num : Number} (network : list request -> fetch_result)
    (API_BASE_URL : string) (m : mutation) (w : world) : Prop :=
  exists before,
    issued w (snd (dispatch network API_BASE_URL
                     (fun render => handle network API_BASE_URL render m) w)) =
      (before ++ reload_all API_BASE_URL (currentUrlPage (ui w)))%list.



(** * More vocabulary *)

(** The [Content-Type] header of a request, if it has one. *)
Definition content_type {Num : Number} (req : request) : option string :=
  match headers (req_init req) with
  | Some h => h !! "Content-Type"
  | None => None
  end.

(** * Upload helper: preview URLs *)

(** The browser's store of object URLs: how many it has minted, and which
    are still live. *)
Record object_urls := {
  minted : nat;
  live : gset string;
}.

Section Previews.

(** The URL the browser mints for its [n]-th object. *)
Variable objectURL : nat -> string.

(** [URL.createObjectURL(file)] *)
Definition URL_createObjectURL (file : File.t) (b : object_urls) : string * object_urls :=
  let url := objectURL (minted b) in
  (url, {| minted := S (minted b); live := {[url]} ∪ live b |}).

(** [URL.revokeObjectURL(url)] *)
Definition URL_revokeObjectURL (url : string) (b : object_urls) : object_urls :=
  {| minted := minted b; live := live b ∖ {[url]} |}.

Definition createPreviewUrl (file : File.t) (b : object_urls) : string * object_urls :=
  URL_createObjectURL file b.

Definition revokePreviewUrl (url : string) (b : object_urls) : object_urls :=
  if String.prefix "blob:" url then URL_revokeObjectURL url b else b.

End Previews.

(** * The projects screen *)

Module Project.
Record t := {
  _id : string;
  name : string;
  description : string;
  thumbnail : string;
  demoLink : string;
  sourceCodeLink : string;
}.
End Project.

Module ProjectForm.
Record t := {
  title : string;
  description : string;
  image : string;
  demoLink : string;
  sourceCodeLink : string;
}.
Definition empty : t :=
  {| title := ""; description := ""; image := ""; demoLink := ""; sourceCodeLink := "" |}.
End ProjectForm.

Module ProjectsManagement.

(** The [useState] cells of the component. *)
Record state := {
  isDialogOpen : bool;
  editingProject : option Project.t;
  loading : bool;
  error : string;
  formData : ProjectForm.t;
  thumbnailFile : option File.t;
  thumbnailPreview : string;
}.

Definition initial : state :=
  {| isDialogOpen := false; editingProject := None; loading := false; error := "";
     formData := ProjectForm.empty; thumbnailFile := None; thumbnailPreview := "" |}.

(** What a handler works on: the cells and the browser's object URLs. *)
Definition cells : Type := state * object_urls.

Definition setIsDialogOpen (x : bool) (c : cells) : cells :=
  let s := fst c in
  ({| isDialogOpen := x; editingProject := editingProject s; loading := loading s;
      error := error s; formData := formData s; thumbnailFile := thumbnailFile s;
      thumbnailPreview := thumbnailPreview s |}, snd c).

Definition setEditingProject (x : option Project.t) (c : cells) : cells :=
  let s := fst c in
  ({| isDialogOpen := isDialogOpen s; editingProject := x; loading := loading s;
      error := error s; formData := formData s; thumbnailFile := thumbnailFile s;
      thumbnailPreview := thumbnailPreview s |}, snd c).

Definition setLoading (x : bool) (c : cells) : cells :=
  let s := fst c in
  ({| isDialogOpen := isDialogOpen s; editingProject := editingProject s; loading := x;
      error := error s; formData := formData s; thumbnailFile := thumbnailFile s;
      thumbnailPreview := thumbnailPreview s |}, snd c).

Definition setError (x : string) (c : cells) : cells :=
  let s := fst c in
  ({| isDialogOpen := isDialogOpen s; editingProject := editingProject s;
      loading := loading s; error := x; formData := formData s;
      thumbnailFile := thumbnailFile s; thumbnailPreview := thumbnailPreview s |}, snd c).

Definition setFormData (x : ProjectForm.t) (c : cells) : cells :=
  let s := fst c in
  ({| isDialogOpen := isDialogOpen s; editingProject := editingProject s;
      loading := loading s; error := error s; formData := x;
      thumbnailFile := thumbnailFile s; thumbnailPreview := thumbnailPreview s |}, snd c).

Definition setThumbnailFile (x : option File.t) (c : cells) : cells :=
  let s := fst c in
  ({| isDialogOpen := isDialogOpen s; editingProject := editingProject s;
      loading := loading s; error := error s; formData := formData s;
      thumbnailFile := x; thumbnailPreview := thumbnailPreview s |}, snd c).

Definition setThumbnailPreview (x : string) (c : cells) : cells :=
  let s := fst c in
  ({| isDialogOpen := isDialogOpen s; editingProject := editingProject s;
      loading := loading s; error := error s; formData := formData s;
      thumbnailFile := thumbnailFile s; thumbnailPreview := x |}, snd c).

(** A call of the upload helper on the browser's object URLs. *)
Definition on_urls (f : object_urls -> object_urls) (c : cells) : cells :=
  (fst c, f (snd c)).

(** [{ ...formData, image }] *)
Definition with_image (f : ProjectForm.t) (x : string) : ProjectForm.t :=
  {| ProjectForm.title := ProjectForm.title f;
     ProjectForm.description := ProjectForm.description f;
     ProjectForm.image := x;
     ProjectForm.demoLink := ProjectForm.demoLink f;
     ProjectForm.sourceCodeLink := ProjectForm.sourceCodeLink f |}.

(** [{ ...formData, title }] and its like. *)
Definition with_title (f : ProjectForm.t) (x : string) : ProjectForm.t :=
  {| ProjectForm.title := x;
     ProjectForm.description := ProjectForm.description f;
     ProjectForm.image := ProjectForm.image f;
     ProjectForm.demoLink := ProjectForm.demoLink f;
     ProjectForm.sourceCodeLink := ProjectForm.sourceCodeLink f |}.

Definition with_description (f : ProjectForm.t) (x : string) : ProjectForm.t :=
  {| ProjectForm.title := ProjectForm.title f;
     ProjectForm.description := x;
     ProjectForm.image := ProjectForm.image f;
     ProjectForm.demoLink := ProjectForm.demoLink f;
     ProjectForm.sourceCodeLink := ProjectForm.sourceCodeLink f |}.

Definition with_demoLink (f : ProjectForm.t) (x : string) : ProjectForm.t :=
  {| ProjectForm.title := ProjectForm.title f;
     ProjectForm.description := ProjectForm.description f;
     ProjectForm.image := ProjectForm.image f;
     ProjectForm.demoLink := x;
     ProjectForm.sourceCodeLink := ProjectForm.sourceCodeLink f |}.

Definition with_sourceCodeLink (f : ProjectForm.t) (x : string) : ProjectForm.t :=
  {| ProjectForm.title := ProjectForm.title f;
     ProjectForm.description := ProjectForm.description f;
     ProjectForm.image := ProjectForm.image f;
     ProjectForm.demoLink := ProjectForm.demoLink f;
     ProjectForm.sourceCodeLink := x |}.

Section Component.

Context {Num : Number}.
Variable objectURL : nat -> string.

(** The props. *)
Variable onAddProject : payload -> M unit.
Variable onUpdateProject : string -> payload -> M unit.
Variable onDeleteProject : string -> M unit.

(** [err.message] of an error the runtime raised; the text is the
    engine's. *)
Variable runtime_message : exn -> string.

(** Handlers are closures of one render: [s] is the state they read, the
    cells are what they write. *)

(** [if (thumbnailPreview && thumbnailPreview.startsWith('blob:'))
       revokePreviewUrl(thumbnailPreview)] *)
Definition revoke_blob_preview (s : state) (c : cells) : cells :=
  if negb (String.eqb (thumbnailPreview s) "") && String.prefix "blob:" (thumbnailPreview s)
  then on_urls (revokePreviewUrl (thumbnailPreview s)) c
  else c.

Definition resetForm (s : state) (c : cells) : cells :=
  let c := setFormData ProjectForm.empty c in
  let c := setEditingProject None c in
  let c := setError "" c in
  let c := setThumbnailFile None c in
  (* Clean up preview URL if it's a blob URL *)
  let c := revoke_blob_preview s c in
  setThumbnailPreview "" c.

Definition handleOpenDialog (s : state) (project : option Project.t) (c : cells) : cells :=
  let c :=
    match project with
    | Some project =>
        let c := setEditingProject (Some project) c in
        let c := setFormData
                   {| ProjectForm.title := Project.name project;
                      ProjectForm.description := Project.description project;
                      ProjectForm.image := Project.thumbnail project;
                      ProjectForm.demoLink := Project.demoLink project;
                      ProjectForm.sourceCodeLink := Project.sourceCodeLink project |} c in
        let c := setThumbnailPreview (Project.thumbnail project) c in
        setThumbnailFile None c
    | None => resetForm s c
    end in
  setIsDialogOpen true c.

Definition handleCloseDialog (s : state) (c : cells) : cells :=
  let c := setIsDialogOpen false c in
  resetForm s c.

(** [file] is [e.target.files?.[0]]. *)
Definition handleFileChange (s : state) (file : option File.t) (c : cells) : cells :=
  match file with
  | Some file =>
      let c := setThumbnailFile (Some file) c in
      (* Clean up previous preview URL if it exists *)
      let c := revoke_blob_preview s c in
      (* Create new preview URL using createObjectURL *)
      let '(previewUrl, b) := createPreviewUrl objectURL file (snd c) in
      let c := setThumbnailPreview previewUrl (fst c, b) in
      (* Clear the URL field when file is selected *)
      setFormData (with_image (formData s) "") c
  | None => c
  end.

Definition handleUrlChange (s : state) (url : string) (c : cells) : cells :=
  let c := setFormData (with_image (formData s) url) c in
  (* Clean up previous preview URL if it's a blob URL *)
  let c := revoke_blob_preview s c in
  let c := setThumbnailPreview url c in
  setThumbnailFile None c.

(** The [FormData] that [handleSubmit] builds. *)
Definition formDataToSend (s : state) : FormData :=
  let f := formData s in
  let fd := [("title", FormText (ProjectForm.title f));
             ("description", FormText (ProjectForm.description f));
             ("demoLink", FormText (ProjectForm.demoLink f));
             ("sourceCodeLink", FormText (ProjectForm.sourceCodeLink f))] in
  match thumbnailFile s with
  | Some file => (fd ++ [("image", FormFile file)])%list
  | None =>
      if negb (String.eqb (ProjectForm.image f) "")
      then (fd ++ [("image", FormText (ProjectForm.image f))])%list
      else fd
  end.

(** [err instanceof Error ? err.message : fallback] *)
Definition message_or (fallback : string) (err : exn) : string :=
  match err with
  | Error message => message
  | Thrown _ => fallback
  | _ => runtime_message err
  end.

Definition handleSubmit (s : state) (cw : cells * world) : cells * world :=
  let '(c, w) := cw in
  if String.eqb (ProjectForm.title (formData s)) ""
     || String.eqb (ProjectForm.description (formData s)) ""
  then (setError "Please fill in all required fields" c, w)
  else
    let c := setLoading true c in
    let c := setError "" c in
    let sending :=
      match editingProject s with
      | Some project => onUpdateProject (Project._id project) (Multipart (formDataToSend s))
      | None => onAddProject (Multipart (formDataToSend s))
      end in
    match sending w with
    | (Return _, w') => (setLoading false (handleCloseDialog s c), w')
    | (Throw err, w') => (setLoading false (setError (message_or "Operation failed" err) c), w')
    end.

(** [confirmed] is the answer to [confirm(...)]. *)
Definition handleDelete (confirmed : bool) (id : string) (cw : cells * world)
    : cells * world :=
  let '(c, w) := cw in
  if negb confirmed then (c, w)
  else
    let c := setLoading true c in
    match onDeleteProject id w with
    | (Return _, w') => (setLoading false c, w')
    | (Throw err, w') => (setLoading false (setError (message_or "Delete failed" err) c), w')
    end.

(** What can happen to the form without a network call.  [OpenChanged]
    is the dialog's own [onOpenChange], wired to [setIsDialogOpen];
    [PreviewFailed] is the [onError] of the preview image, raised by the
    browser when the address shown as preview does not load as an image. *)
Inductive event :=
| NewClicked
| EditClicked (project : Project.t)
| CancelClicked
| OpenChanged (open : bool)
| FileChosen (file : option File.t)
| UrlTyped (url : string)
| TitleTyped (text : string)
| DescriptionTyped (text : string)
| DemoLinkTyped (text : string)
| SourceCodeLinkTyped (text : string)
| PreviewFailed.

(** One turn: the handler of the event, as a closure of the current state. *)
Definition fire (e : event) (c : cells) : cells :=
  let s := fst c in
  match e with
  | NewClicked => handleOpenDialog s None c
  | EditClicked project => handleOpenDialog s (Some project) c
  | CancelClicked => handleCloseDialog s c
  | OpenChanged open => setIsDialogOpen open c
  | FileChosen file => handleFileChange s file c
  | UrlTyped url => handleUrlChange s url c
  | TitleTyped text => setFormData (with_title (formData s) text) c
  | DescriptionTyped text => setFormData (with_description (formData s) text) c
  | DemoLinkTyped text => setFormData (with_demoLink (formData s) text) c
  | SourceCodeLinkTyped text => setFormData (with_sourceCodeLink (formData s) text) c
  | PreviewFailed => setThumbnailPreview "" c
  end.

End Component.

End ProjectsManagement.

(** * The URL screen *)

Module UrlForm.
Record t := {
  fullUrl : string;
  shortenUrl : string;
}.
Definition empty : t := {| fullUrl := ""; shortenUrl := "" |}.
End UrlForm.

Module UrlManagement.

(** ** Page buttons

    The pagination controls, for integer page counts. *)

(** The page numbers [Array.from] computes; [None] is the [null] the
    callback returns for a number beyond the last page. *)
Definition page_numbers (totalPages currentPage : Z) : list (option Z) :=
  map (fun i =>
         let pageNumber :=
           (Z.max 1 (Z.min (totalPages - 4) (Z.max 1 (currentPage - 2)))
            + Z.of_nat i)%Z in
         if (pageNumber >? totalPages)%Z then None else Some pageNumber)
      (seq 0 (Z.to_nat (Z.min 5 totalPages))).

(** The page buttons the screen shows: the whole pagination block is
    rendered only under [pagination.totalPages > 1]. *)
Definition page_buttons (totalPages currentPage : Z) : list (option Z) :=
  if (totalPages >? 1)%Z then page_numbers totalPages currentPage else [].

Section Component.

Context {Num : Number}.

(** A row of the list, as the [ShortenedUrl] interface declares it. *)
Record ShortenedUrl := {
  _id : string;
  shortenUrl : string;
  fullUrl : string;
  clicks : number;
  userId : option string;
  isDeleted : option bool;
  createdAt : option string;
}.

(** The [useState] cells of the component. *)
Record state := {
  isDialogOpen : bool;
  editingUrl : option ShortenedUrl;
  loading : bool;
  error : string;
  copySuccess : string;
  formData : UrlForm.t;
}.

Definition initial : state :=
  {| isDialogOpen := false; editingUrl := None; loading := false; error := "";
     copySuccess := ""; formData := UrlForm.empty |}.

Definition setIsDialogOpen (x : bool) (s : state) : state :=
  {| isDialogOpen := x; editingUrl := editingUrl s; loading := loading s;
     error := error s; copySuccess := copySuccess s; formData := formData s |}.

Definition setEditingUrl (x : option ShortenedUrl) (s : state) : state :=
  {| isDialogOpen := isDialogOpen s; editingUrl := x; loading := loading s;
     error := error s; copySuccess := copySuccess s; formData := formData s |}.

Definition setLoading (x : bool) (s : state) : state :=
  {| isDialogOpen := isDialogOpen s; editingUrl := editingUrl s; loading := x;
     error := error s; copySuccess := copySuccess s; formData := formData s |}.

Definition setError (x : string) (s : state) : state :=
  {| isDialogOpen := isDialogOpen s; editingUrl := editingUrl s; loading := loading s;
     error := x; copySuccess := copySuccess s; formData := formData s |}.

Definition setFormData (x : UrlForm.t) (s : state) : state :=
  {| isDialogOpen := isDialogOpen s; editingUrl := editingUrl s; loading := loading s;
     error := error s; copySuccess := copySuccess s; formData := x |}.

(** The props. *)
Variable onAddUrl : value -> M unit.
Variable onUpdateUrl : string -> value -> M unit.
Variable onDeleteUrl : string -> M unit.

(** Whether [new URL(text)] accepts [text]. *)
Variable URL_parses : string -> bool.

(** [err.message] of an error the runtime raised; the text is the
    engine's. *)
Variable runtime_message : exn -> string.

(** [err instanceof Error ? err.message : fallback] *)
Definition message_or (fallback : string) (err : exn) : string :=
  match err with
  | Error message => message
  | Thrown _ => fallback
  | _ => runtime_message err
  end.

Definition resetForm (c : state) : state :=
  let c := setFormData UrlForm.empty c in
  let c := setEditingUrl None c in
  setError "" c.

Definition handleOpenDialog (url : option ShortenedUrl) (c : state) : state :=
  let c :=
    match url with
    | Some url =>
        let c := setEditingUrl (Some url) c in
        setFormData {| UrlForm.fullUrl := fullUrl url;
                       UrlForm.shortenUrl := shortenUrl url |} c
    | None => resetForm c
    end in
  setIsDialogOpen true c.

Definition handleCloseDialog (c : state) : state :=
  let c := setIsDialogOpen false c in
  resetForm c.

(** The object literal [formData] as a value. *)
Definition form_value (f : UrlForm.t) : value :=
  VObj [("fullUrl", VStr (UrlForm.fullUrl f));
        ("shortenUrl", VStr (UrlForm.shortenUrl f))].

(** [s] is the state the handler closes over, [c] the cells it writes. *)
Definition handleSubmit (s : state) (cw : state * world) : state * world :=
  let '(c, w) := cw in
  if String.eqb (UrlForm.fullUrl (formData s)) "" then
    (setError "Please enter a URL to shorten" c, w)
  else if negb (URL_parses (UrlForm.fullUrl (formData s))) then
    (* Basic URL validation *)
    (setError "Please enter a valid URL" c, w)
  else
    let c := setLoading true c in
    let c := setError "" c in
    let sending :=
      match editingUrl s with
      | Some url => onUpdateUrl (_id url) (form_value (formData s))
      | None => onAddUrl (VObj [("fullUrl", VStr (UrlForm.fullUrl (formData s)))])
      end in
    match sending w with
    | (Return _, w') => (setLoading false (handleCloseDialog c), w')
    | (Throw err, w') => (setLoading false (setError (message_or "Operation failed" err) c), w')
    end.

(** [confirmed] is the answer to [confirm(...)]. *)
Definition handleDelete (confirmed : bool) (id : string) (cw : state * world)
    : state * world :=
  let '(c, w) := cw in
  if negb confirmed then (c, w)
  else
    let c := setLoading true c in
    match onDeleteUrl id w with
    | (Return _, w') => (setLoading false c, w')
    | (Throw err, w') => (setLoading false (setError (message_or "Delete failed" err) c), w')
    end.

End Component.

End UrlManagement.

(** * The screens wired to the controller

    [App] hands its handlers to the screens as props; a screen that calls
    one runs it as a closure of the controller's current render. *)

Section Wiring.

Context {Num : Number}.
Variable network : list request -> fetch_result.
Variable API_BASE_URL : string.

Definition App_onAddProject (projectData : payload) : M unit :=
  dispatch network API_BASE_URL (fun render =>
    handleAddProject network API_BASE_URL render projectData).

Definition App_onUpdateProject (id : string) (projectData : payload) : M unit :=
  dispatch network API_BASE_URL (fun render =>
    handleUpdateProject network API_BASE_URL render id projectData).

Definition App_onDeleteProject (id : string) : M unit :=
  dispatch network API_BASE_URL (fun render =>
    handleDeleteProject network API_BASE_URL render id).

Definition App_onAddUrl (urlData : value) : M unit :=
  dispatch network API_BASE_URL (fun render =>
    handleAddUrl network API_BASE_URL render urlData).

Definition App_onUpdateUrl (id : string) (urlData : value) : M unit :=
  dispatch network API_BASE_URL (fun render =>
    handleUpdateUrl network API_BASE_URL render id urlData).

Definition App_onDeleteUrl (id : string) : M unit :=
  dispatch network API_BASE_URL (fun render =>
    handleDeleteUrl network API_BASE_URL render id).

(** The URL screen's submit and delete, with the controller's handlers. *)
Definition url_submit (URL_parses : string -> bool) (runtime_message : exn -> string) :=
  UrlManagement.handleSubmit App_onAddUrl App_onUpdateUrl URL_parses runtime_message.

Definition url_delete (runtime_message : exn -> string) :=
  UrlManagement.handleDelete App_onDeleteUrl runtime_message.

(** The projects screen's submit, with the controller's handlers. *)
Definition project_submit (runtime_message : exn -> string) :=
  ProjectsManagement.handleSubmit App_onAddProject App_onUpdateProject runtime_message.

(** The mutation a submit of the URL form asks for. *)
Definition url_submission (s : UrlManagement.state) : mutation :=
  match UrlManagement.editingUrl s with
  | Some url =>
      UpdateUrl (UrlManagement._id url) (UrlManagement.form_value (UrlManagement.formData s))
  | None =>
      AddUrl (VObj [("fullUrl", VStr (UrlForm.fullUrl (UrlManagement.formData s)))])
  end.


(** How a mutation turn ends, given the settlement of its request and,
    when the call returned, that the reload never fails. *)
Definition mutation_result (m : mutation) (res : fetch_result) : outcome unit :=
  match res with
  | Rejected e => Throw e
  | Resolved r =>
      if ok r then
        match json r with
        | Some _ => Return tt
        | None => Throw SyntaxError
        end
      else Throw (Error (failure_message (mutation_call m)))
  end.

End Wiring.

(** * Vocabulary of the preview statements *)

(** No preview is leaked: an object URL that is live is the preview the
    form shows (and is a [blob:] URL). *)
Definition tidy (c : ProjectsManagement.cells) : Prop :=
  forall u, u ∈ live (snd c) ->
    u = ProjectsManagement.thumbnailPreview (fst c) /\ String.prefix "blob:" u = true.

(** A chosen file and a typed image URL do not coexist in the form. *)
Definition exclusive (s : ProjectsManagement.state) : Prop :=
  ProjectsManagement.thumbnailFile s <> None ->
  ProjectForm.image (ProjectsManagement.formData s) = "".

(** A browser that mints [blob:0], [blob:1], ... *)
Definition numbered_blobs (n : nat) : string := "blob:" ++ pretty n.

Definition no_urls : object_urls := {| minted := 0; live := ∅ |}.

Definition sample_project : Project.t :=
  {| Project._id := "p1"; Project.name := "Portfolio";
     Project.description := "My site";
     Project.thumbnail := "https://example.com/p.png";
     Project.demoLink := "https://example.com";
     Project.sourceCodeLink := "https://example.com/src" |}.

(** The operator opens the dialog, chooses a file and dismisses the
    dialog with the Escape key. *)
Definition dismissed_with_preview : ProjectsManagement.cells :=
  ProjectsManagement.fire numbered_blobs (ProjectsManagement.OpenChanged false)
    (ProjectsManagement.fire numbered_blobs
       (ProjectsManagement.FileChosen (Some exactly_5MiB_png))
       (ProjectsManagement.fire numbered_blobs ProjectsManagement.NewClicked
          (ProjectsManagement.initial, no_urls))).

(** * More concrete inputs *)

(** A browser session restored from storage: flag and token present. *)
Definition returning_world : @world IntegerNumbers :=
  {| localStorage := {["isAuthenticated" := "true"; "authToken" := "t0k3n"]};
     sent := []; console := []; ui := initial_state |}.

(** An upload endpoint that answers with the stored image's address. *)
Definition upload_server : list (@request IntegerNumbers) -> fetch_result :=
  answering {| status := 200; text := "";
               json := Some (VObj [("url", VStr "https://cdn.example.com/p.png")]) |}.

Definition nested_two_urls : @value IntegerNumbers :=
  VObj [("success", VBool true);
        ("data", VObj [("urls", VArr [VStr "a"; VStr "b"])])].

(** A stand-in for [new URL]: accept what starts with [http]. *)
Definition http_only (text : string) : bool := String.prefix "http" text.

(** A stand-in for the engine's message texts. *)
Definition engine_text (e : @exn IntegerNumbers) : string := "runtime error".

(** The URL form with an address typed in, no row being edited. *)
Definition typed_url_form : @UrlManagement.state IntegerNumbers :=
  UrlManagement.setFormData
    {| UrlForm.fullUrl := "https://example.com"; UrlForm.shortenUrl := "" |}
    (UrlManagement.setIsDialogOpen true UrlManagement.initial).


(** A login endpoint whose token is an object with a [toString] member
    of its own. *)
Definition odd_token : @value IntegerNumbers :=
  VObj [("toString", VStr "t0k3n")].

Definition odd_token_server : list (@request IntegerNumbers) -> fetch_result :=
  answering (json_ok (VObj [("token", odd_token)])).

(** The operator opens the dialog and chooses a file that turns out not
    to be an image the browser can show. *)
Definition broken_preview : ProjectsManagement.cells :=
  ProjectsManagement.fire numbered_blobs
    (ProjectsManagement.FileChosen (Some exactly_5MiB_png))
    (ProjectsManagement.fire numbered_blobs ProjectsManagement.NewClicked
       (ProjectsManagement.initial, no_urls)).

(** * Properties *)

(** ** Upload helper: validation *)

Lemma validateImageFile_cases (file : File.t) :
  validateImageFile file =
    if String.prefix "image/" (File.type file) then
      if (5 * 1024 * 1024 <? File.size file)%N
      then {| valid := false; error := Some "File size must be less than 5MB" |}
      else {| valid := true; error := None |}
    else {| valid := false; error := Some "File must be an image" |}.
Proof.
  unfold validateImageFile.
  destruct (String.prefix "image/" (File.type file)); reflexivity.
Qed.

(** C4: [validateImageFile] is a total function; it answers [valid: false]
    exactly for files whose MIME type does not start with [image/] or whose
    size is strictly greater than 5 MiB, answers [{valid: true}] for all
    others, and accepts an image of exactly 5 MiB. *)
Theorem validateImageFile_spec (file : File.t) :
  (valid (validateImageFile file) = false <->
     String.prefix "image/" (File.type file) = false \/
     (5 * 1024 * 1024 < File.size file)%N) /\
  (~ (String.prefix "image/" (File.type file) = false \/
      (5 * 1024 * 1024 < File.size file)%N) ->
     validateImageFile file = {| valid := true; error := None |}) /\
  (String.prefix "image/" (File.type file) = true ->
   File.size file = (5 * 1024 * 1024)%N ->
     validateImageFile file = {| valid := true; error := None |}).
Proof.
  rewrite validateImageFile_cases.
  destruct (String.prefix "image/" (File.type file)) eqn:Himg;
    destruct (N.ltb_spec (5 * 1024 * 1024) (File.size file)) as [Hbig | Hsmall];
    cbn [valid]; repeat split; intros; try tauto; try lia; try discriminate;
    try (exfalso; intuition (discriminate || lia)).
Qed.

Lemma validateImageFile_spec_witness :
  validateImageFile exactly_5MiB_png = {| valid := true; error := None |}.
Proof.
  apply (proj2 (proj2 (validateImageFile_spec exactly_5MiB_png))); reflexivity.
Defined.

Section Properties.

Context {Num : Number}.
Variable network : list request -> fetch_result.
Variable API_BASE_URL : string.

(** ** Values *)

Lemma truthy_defined (v : value) : truthy v = true -> v <> VUndefined.
Proof. intros H ->. discriminate. Qed.

Lemma js_or_defined (a b : value) : b <> VUndefined -> js_or a b <> VUndefined.
Proof.
  intros Hb. unfold js_or.
  destruct (truthy a) eqn:Ha; [now apply truthy_defined | exact Hb].
Qed.

Lemma js_or_truthy (a b : value) : truthy b = true -> truthy (js_or a b) = true.
Proof. intros Hb. unfold js_or. now destruct (truthy a) eqn:Ha. Qed.

(** Reading a property only throws on [null] and [undefined]. *)
Lemma get_returns (v : value) (p : string) :
  v <> VNull -> v <> VUndefined -> exists x, get v p = Return x.
Proof. destruct v; intros; try congruence; eexists; reflexivity. Qed.

Lemma get_throws (v : value) (p : string) (e : exn) :
  get v p = Throw e -> e = TypeError.
Proof. destruct v; cbn; congruence. Qed.

Lemma get_truthy (v : value) (p : string) :
  truthy v = true -> exists x, get v p = Return x.
Proof. intros H. apply get_returns; intros ->; discriminate. Qed.

(** The only exception the conversion to a string can raise is the
    [TypeError] of an object that has a [toString] member of its own. *)
Lemma to_string_throws (v : value) (e : exn) :
  to_string v = Throw e -> e = TypeError.
Proof.
  revert v e. fix IH 1. intros [| | b | n | s | elems | props] e; cbn;
    try discriminate.
  - revert elems e. fix IHjoin 1. intros [| x rest] e; [discriminate |].
    assert (Hitem : forall e0,
      match x with VUndefined | VNull => Return "" | _ => to_string x end = Throw e0 ->
      e0 = TypeError).
    { intros e0. pose proof (IH x e0) as Hx. destruct x; try discriminate; exact Hx. }
    destruct (match x with VUndefined | VNull => Return "" | _ => to_string x end)
      as [first | e0] eqn:Hx; cbn [bind_outcome].
    + pose proof (IHjoin rest e) as Hrest.
      destruct rest as [| y rest']; [discriminate |].
      intros H. apply Hrest. revert H.
      match goal with
      | |- bind_outcome ?j _ = _ -> _ => destruct j
      end; cbn [bind_outcome]; [discriminate | exact (fun H => H)].
    + intros [= <-]. now apply Hitem.
  - destruct (has_own "toString" props); [now intros [= <-] | discriminate].
Qed.

Lemma to_string_string (s : string) : to_string (VStr s) = Return s.
Proof. reflexivity. Qed.

(** ** The URL list envelope *)

(** A bare array is returned as it is, inside the synthetic envelope. *)
Lemma urlAPI_normalize_array (page : number) (records : list value) :
  urlAPI_normalize page (VArr records) =
    Return {| data := records; page_info := synthetic page (length records) |}.
Proof. reflexivity. Qed.

(** Any other body that is not [null] and fails the nested-shape test
    degrades to the empty list. *)
Lemma urlAPI_normalize_other (page : number) (result : value) :
  result <> VNull -> result <> VUndefined ->
  isArray result = false -> nested_shape result = false ->
  urlAPI_normalize page result =
    Return {| data := []; page_info := synthetic page 0 |}.
Proof.
  intros Hnull Hundef Harr Hshape.
  unfold urlAPI_normalize, nested_shape in *.
  destruct (get_returns result "success" Hnull Hundef) as [s Hs].
  destruct (get_returns result "data" Hnull Hundef) as [d Hd].
  rewrite Hs, Hd in *. cbn [bind_outcome].
  destruct (truthy s) eqn:Ts; cbn [bind_outcome andb] in *.
  - rewrite Hshape. destruct result; try discriminate; reflexivity.
  - rewrite Ts. destruct result; try discriminate; reflexivity.
Qed.

(** A body other than [null] is always normalized to some envelope, and
    four of its five fields always hold a value. *)
Lemma urlAPI_normalize_returns (page : number) (result : value) :
  result <> VNull -> result <> VUndefined ->
  exists p, urlAPI_normalize page result = Return p /\
    currentPage (page_info p) <> VUndefined /\
    totalPages (page_info p) <> VUndefined /\
    hasNext (page_info p) <> VUndefined /\
    hasPrev (page_info p) <> VUndefined.
Proof.
  intros Hnull Hundef. unfold urlAPI_normalize.
  destruct (get_returns result "success" Hnull Hundef) as [s Hs].
  destruct (get_returns result "data" Hnull Hundef) as [d Hd].
  rewrite Hs, Hd. cbn [bind_outcome].
  destruct (truthy s) eqn:Ts; cbn [bind_outcome].
  - destruct (truthy d) eqn:Td.
    + destruct (get_truthy d "urls" Td) as [u ->].
      destruct (get_truthy d "pagination" Td) as [pg ->].
      cbn [bind_outcome].
      set (urlsData := js_or u (VArr [])).
      set (paginationData := js_or pg (VObj [])).
      assert (Tu : truthy urlsData = true) by now apply js_or_truthy.
      assert (Tp : truthy paginationData = true) by now apply js_or_truthy.
      destruct (get_truthy paginationData "currentPage" Tp) as [cp ->].
      destruct (get_truthy paginationData "totalPages" Tp) as [tp ->].
      destruct (get_truthy paginationData "totalUrls" Tp) as [tu ->].
      destruct (get_truthy paginationData "hasNextPage" Tp) as [hn ->].
      destruct (get_truthy paginationData "hasPrevPage" Tp) as [hp ->].
      destruct (get_truthy urlsData "length" Tu) as [len ->].
      cbn [bind_outcome].
      destruct (truthy tu); cbn [bind_outcome]; eexists; (split; [reflexivity |]);
        cbn [page_info currentPage totalPages hasNext hasPrev];
        repeat split; apply js_or_defined; discriminate.
    + eexists; split; [reflexivity |]. cbn. repeat split; discriminate.
  - rewrite Ts. eexists; split; [reflexivity |]. cbn. repeat split; discriminate.
Qed.

(** When [data.urls] is absent, falsy or an array, all five fields hold a
    value. *)
Lemma urlAPI_normalize_all_defined (page : number) (result : value) (p : url_page) :
  urlAPI_normalize page result = Return p ->
  (forall d u, get result "data" = Return d -> get d "urls" = Return u ->
     truthy u = true -> isArray u = true) ->
  all_defined (page_info p).
Proof.
  unfold urlAPI_normalize, all_defined. intros Hrun Hurls.
  destruct (get result "success") as [s |] eqn:Hs; [| discriminate].
  cbn [bind_outcome] in Hrun.
  destruct (get result "data") as [d |] eqn:Hd;
    [| destruct result; discriminate].
  assert (Hfallback : forall q,
    Return {| data := array_or_empty result;
              page_info := {| currentPage := VNum page;
                              totalPages := VNum (num_of_nat 1);
                              totalItems := VNum (num_of_nat (length (array_or_empty result)));
                              hasNext := VBool false; hasPrev := VBool false |} |}
      = Return q ->
    currentPage (page_info q) <> VUndefined /\ totalPages (page_info q) <> VUndefined /\
    totalItems (page_info q) <> VUndefined /\ hasNext (page_info q) <> VUndefined /\
    hasPrev (page_info q) <> VUndefined).
  { intros q [= <-]. cbn. repeat split; discriminate. }
  destruct (truthy s) eqn:Ts; cbn [bind_outcome] in Hrun;
    [| rewrite Ts in Hrun; now apply Hfallback].
  destruct (truthy d) eqn:Td; [| now apply Hfallback].
  cbn [bind_outcome] in Hrun.
  destruct (get_truthy d "urls" Td) as [u Hu]. rewrite Hu in Hrun.
  destruct (get_truthy d "pagination" Td) as [pg Hpg]. rewrite Hpg in Hrun.
  cbn [bind_outcome] in Hrun.
  assert (Harr : exists l, js_or u (VArr []) = VArr l).
  { unfold js_or. destruct (truthy u) eqn:Tu; [| now eexists].
    specialize (Hurls d u eq_refl Hu Tu). destruct u; try discriminate. now eexists. }
  destruct Harr as [l Hl]. rewrite Hl in Hrun.
  set (paginationData := js_or pg (VObj [])) in Hrun.
  assert (Tp : truthy paginationData = true) by now apply js_or_truthy.
  destruct (get_truthy paginationData "currentPage" Tp) as [cp Hcp].
  destruct (get_truthy paginationData "totalPages" Tp) as [tp Htp].
  destruct (get_truthy paginationData "totalUrls" Tp) as [tu Htu].
  destruct (get_truthy paginationData "hasNextPage" Tp) as [hn Hhn].
  destruct (get_truthy paginationData "hasPrevPage" Tp) as [hp Hhp].
  rewrite Hcp, Htp, Htu, Hhn, Hhp in Hrun. cbn [bind_outcome] in Hrun.
  destruct (truthy tu) eqn:Ttu; cbn in Hrun; injection Hrun as <-; cbn;
    repeat split; try (apply js_or_defined; discriminate); try discriminate.
  now apply truthy_defined.
Qed.

(** The only exception normalization can raise is the [TypeError] of a
    property read on [null]. *)
Lemma urlAPI_normalize_throws (page : number) (result : value) (e : exn) :
  urlAPI_normalize page result = Throw e -> e = TypeError.
Proof.
  unfold urlAPI_normalize.
  repeat match goal with
  | |- context [bind_outcome (get ?v ?p) _] =>
      let H := fresh "Hget" in
      destruct (get v p) eqn:H; cbn [bind_outcome];
      [| intros [= <-]; now apply get_throws in H]
  | |- context [if truthy ?v then _ else _] => destruct (truthy v)
  | |- context [bind_outcome (Return _) _] => cbn [bind_outcome]
  end; try discriminate.
Qed.

(** ** Running the HTTP wrapper *)

Lemma createHeaders_run (additional : gmap string string) (isFormData : bool)
    (w : world) :
  createHeaders additional isFormData w =
    (Return (headers_in w additional isFormData), w).
Proof.
  unfold headers_in, createHeaders, getAuthToken, localStorage_getItem, bind, ret.
  reflexivity.
Qed.

Lemma fetch_run (url : string) (init : RequestInit) (w : world) :
  let w' := after_request w {| req_url := url; req_init := init |} in
  fetch network url init w = (settle (network (sent w')), w').
Proof.
  unfold fetch, settle, after_request. cbn.
  destruct (network _); reflexivity.
Qed.

Lemma apiRequest_run (url : string) (options : RequestInit) (w : world) :
  let w' := after_request w (request_in w url options) in
  apiRequest network url options w = (settle (network (sent w')), w').
Proof.
  unfold apiRequest, bind. rewrite createHeaders_run. apply fetch_run.
Qed.

Lemma headers_in_Authorization (w : world) (additional : gmap string string)
    (isFormData : bool) :
  headers_in w additional isFormData !! "Authorization" =
    match stored_token w with
    | Some t => Some ("Bearer " ++ t)
    | None => additional !! "Authorization"
    end.
Proof.
  unfold headers_in, stored_token, createHeaders, getAuthToken,
    localStorage_getItem, bind, ret. cbn.
  destruct (localStorage w !! "authToken") as [t |]; cbn.
  - destruct (String.eqb t ""); cbn.
    + destruct isFormData; cbn; [reflexivity | now rewrite lookup_insert_ne].
    + now rewrite lookup_insert_eq.
  - destruct isFormData; cbn; [reflexivity | now rewrite lookup_insert_ne].
Qed.

Lemma headers_in_Content_Type (w : world) (additional : gmap string string)
    (isFormData : bool) :
  headers_in w additional isFormData !! "Content-Type" =
    if isFormData then additional !! "Content-Type" else Some "application/json".
Proof.
  unfold headers_in, createHeaders, getAuthToken, localStorage_getItem, bind, ret.
  cbn.
  assert (Hne : "Authorization" <> "Content-Type") by discriminate.
  destruct (localStorage w !! "authToken") as [t |]; cbn;
    [destruct (String.eqb t ""); cbn |];
    destruct isFormData; cbn;
    rewrite ?(lookup_insert_ne _ _ _ _ Hne), ?lookup_insert_eq; reflexivity.
Qed.

(** ** Running the calls of the resource modules *)

Lemma void_run {A} (m : M A) (w : world) :
  void m w = (match fst (m w) with Return _ => Return tt | Throw e => Throw e end,
              snd (m w)).
Proof. unfold void, bind, ret. destruct (m w) as [[a | e] w']; reflexivity. Qed.

(** The pattern every call follows: one request, then the status check. *)
Lemma guarded_run {A} (url : string) (options : RequestInit) (msg : string)
    (k : response -> M A) (w : world) :
  bind (apiRequest network url options)
       (fun response =>
          if negb (ok response) then throw (Error msg) else k response) w =
    match network (sent (after_request w (request_in w url options))) with
    | Rejected e => (Throw e, after_request w (request_in w url options))
    | Resolved r =>
        if ok r then k r (after_request w (request_in w url options))
        else (Throw (Error msg), after_request w (request_in w url options))
    end.
Proof.
  unfold bind. rewrite apiRequest_run. cbv zeta. unfold settle.
  destruct (network _) as [r | e]; [destruct (ok r) |]; reflexivity.
Qed.

Lemma response_json_run (r : response) (w : world) :
  response_json r w =
    (match json r with Some v => Return v | None => Throw SyntaxError end, w).
Proof. unfold response_json. destruct (json r); reflexivity. Qed.

Ltac run_call :=
  unfold perform; rewrite void_run;
  unfold authAPI_login, projectsAPI_getAll, projectsAPI_create, projectsAPI_update,
    projectsAPI_delete, skillsAPI_getAll, skillsAPI_create, skillsAPI_update,
    skillsAPI_delete, messagesAPI_getAll, urlAPI_getAll, urlAPI_create,
    urlAPI_update, urlAPI_delete;
  rewrite guarded_run.

Lemma call_options_plain (c : api_call) :
  headers (call_options c) = None /\ credentials (call_options c) = None.
Proof. destruct c; split; reflexivity. Qed.

(** Every call issues exactly one request, built by the wrapper from
    options that bring no headers and no credentials of their own; it
    fails with its generic message when the status is not 2xx and with no
    [Error] of its own making otherwise; it leaves the controller state
    alone and writes no storage key other than [authToken]. *)
Lemma perform_shape (c : api_call) (w : world) :
  let w' := after_request w (call_request API_BASE_URL w c) in
  sent (snd (perform network API_BASE_URL c w)) = sent w' /\
  ui (snd (perform network API_BASE_URL c w)) = ui w /\
  (forall key, key <> "authToken" ->
     (localStorage (snd (perform network API_BASE_URL c w)) !! key)
     = (localStorage w !! key)) /\
  match network (sent w') with
  | Rejected e => perform network API_BASE_URL c w = (Throw e, w')
  | Resolved r =>
      if ok r then
        (forall m, fst (perform network API_BASE_URL c w) <> Throw (Error m)) /\
        ((forall email password, c <> Login email password) ->
           snd (perform network API_BASE_URL c w) = w')
      else perform network API_BASE_URL c w
           = (Throw (Error (failure_message c)), w')
  end.
Proof.
  destruct c; cbv zeta; unfold call_request; cbn [call_url call_options];
    run_call;
    (destruct (network _) as [r | e]; [destruct (ok r) |]);
    cbn [fst snd failure_message];
    unfold bind, lift, ret, throw, localStorage_setItem;
    rewrite ?response_json_run;
    try (destruct (json r) as [d |]);
    try (destruct (get d _) as [x | ex] eqn:Hget;
         [| apply get_throws in Hget; subst ex]);
    try (destruct (truthy x));
    try (match goal with
         | |- context [to_string ?t] =>
             destruct (to_string t) as [stored | ex] eqn:Hstored;
             [| apply to_string_throws in Hstored; subst ex]
         end);
    try (destruct (urlAPI_normalize _ _) as [pg | ex] eqn:Hnorm;
         [| apply urlAPI_normalize_throws in Hnorm; subst ex]);
    cbn; repeat split; intros; try congruence; try discriminate;
    try (now rewrite lookup_insert_ne);
    try (exfalso; eauto);
    try (match goal with H : forall _ _, Login _ _ <> _ |- _ => now eapply H end).
Qed.

(** C5: a call of a resource module (or [login]) whose request was answered
    with response [r] throws [Error] with its generic, operation-naming
    message if and only if the status of [r] is not 2xx; that error is a
    constant of the operation, so nothing the server sent is in it. *)
Theorem api_call_fails_iff_not_2xx (c : api_call) (w : world) (r : response) :
  network (sent (snd (perform network API_BASE_URL c w))) = Resolved r ->
  (fst (perform network API_BASE_URL c w) = Throw (Error (failure_message c)) <->
     ~ (200 <= status r <= 299)%nat) /\
  (forall e, fst (perform network API_BASE_URL c w) = Throw e ->
     ~ (200 <= status r <= 299)%nat -> e = Error (failure_message c)).
Proof.
  intros Hanswer.
  destruct (perform_shape c w) as (Hsent & _ & _ & Hrun).
  rewrite Hsent in Hanswer. rewrite Hanswer in Hrun.
  assert (Hok : ok r = true <-> (200 <= status r <= 299)%nat).
  { unfold ok. rewrite andb_true_iff, !Nat.leb_le. reflexivity. }
  destruct (ok r) eqn:Hr.
  - destruct Hrun as [Hnot _]. split.
    + split; [intros H; now apply Hnot in H | intros H; exfalso; apply H, Hok; reflexivity].
    + intros e _ H. exfalso. apply H, Hok. reflexivity.
  - rewrite Hrun. cbn [fst]. split.
    + split; [intros _ H; apply Hok in H; discriminate | reflexivity].
    + intros e He _. congruence.
Qed.

(** ** The contract of the HTTP wrapper *)

(** For options that bring no [headers] and no [credentials] member of
    their own, as at every call site of [api.ts], the request includes
    credentials, has [Content-Type: application/json] unless the body is a
    multipart form, and has [Authorization: Bearer <token>] exactly when a
    non-empty token is stored. *)
Lemma apiRequest_contract (url : string) (options : RequestInit) (w : world) :
  headers options = None -> credentials options = None ->
  snd (apiRequest network url options w) = after_request w (request_in w url options) /\
  credentials (req_init (request_in w url options)) = Some "include" /\
  exists h, headers (req_init (request_in w url options)) = Some h /\
    h !! "Content-Type" =
      (if instanceof_FormData (body options) then None else Some "application/json") /\
    h !! "Authorization" = (fun t => "Bearer " ++ t) <$> stored_token w.
Proof.
  intros Hh Hc. rewrite apiRequest_run. cbv zeta. split; [reflexivity |].
  unfold request_in, spread. cbn [req_init headers credentials].
  rewrite Hh, Hc. cbn [from_option default]. split; [reflexivity |].
  eexists; split; [reflexivity |]. split.
  - rewrite headers_in_Content_Type. now destruct (instanceof_FormData _).
  - rewrite headers_in_Authorization. now destruct (stored_token w).
Qed.

(** C3, at options that carry [headers] and [credentials] members: the
    spread [...options] comes last, so the request handed to [fetch] is
    the caller's options unchanged.  Whatever token is stored, it has no
    [Authorization] and no [Content-Type] header although its body is JSON
    text, and its credentials mode is [omit]. *)
Theorem apiRequest_options_override (url : string) (w : world) :
  snd (apiRequest network url overriding_options w) =
    after_request w {| req_url := url; req_init := overriding_options |} /\
  authorization {| req_url := url; req_init := overriding_options |} = None /\
  (forall h, headers overriding_options = Some h -> h !! "Content-Type" = None) /\
  credentials overriding_options = Some "omit".
Proof.
  rewrite apiRequest_run. cbv zeta. repeat split.
  intros h [= <-]. reflexivity.
Qed.

(** ** Session teardown *)

Lemma authAPI_logout_run (w : world) :
  exists w', authAPI_logout network API_BASE_URL w = (Return tt, w') /\
    localStorage w' = delete "authToken" (localStorage w) /\
    ui w' = ui w /\
    sent w' = (sent w ++ [logout_request API_BASE_URL w])%list /\
    console w' =
      (console w ++ logout_log (network (sent w ++ [logout_request API_BASE_URL w])))%list.
Proof.
  unfold authAPI_logout, bind, try_catch, localStorage_removeItem.
  rewrite apiRequest_run. cbv zeta. unfold settle, logout_request, with_method.
  cbn [sent after_request with_sent with_localStorage].
  destruct (network _) as [r | e]; cbn; eexists; repeat split.
  now rewrite app_nil_r.
Qed.

Lemma handleLogout_run (w : world) :
  exists w', handleLogout network API_BASE_URL w = (Return tt, w') /\
    localStorage w' !! "authToken" = None /\
    localStorage w' !! "isAuthenticated" = None /\
    isAuthenticated (ui w') = false /\
    activeSection (ui w') = "overview" /\
    sent w' = (sent w ++ [logout_request API_BASE_URL w])%list /\
    console w' =
      (console w ++ logout_log (network (sent w ++ [logout_request API_BASE_URL w])))%list.
Proof.
  unfold handleLogout, bind, try_catch.
  destruct (authAPI_logout_run w) as (w1 & -> & Hls & _ & Hsent & Hlog).
  cbn. eexists; split; [reflexivity |]. cbn. rewrite Hls.
  repeat split; try assumption.
  - rewrite lookup_delete_ne by discriminate. apply lookup_delete_eq.
  - apply lookup_delete_eq.
Qed.

(** C6: a logout, whatever the network does with the logout request,
    completes normally, removes [authToken] and [isAuthenticated] from
    storage, leaves the controller unauthenticated and resets the active
    section to [overview].  It issues the one logout request, and a
    rejection of that request shows only as a console warning. *)
Theorem logout_always_clears_session (w : world) :
  let run := dispatch network API_BASE_URL
               (fun _ => handleLogout network API_BASE_URL) w in
  fst run = Return tt /\
  localStorage (snd run) !! "authToken" = None /\
  localStorage (snd run) !! "isAuthenticated" = None /\
  isAuthenticated (ui (snd run)) = false /\
  activeSection (ui (snd run)) = "overview" /\
  sent (snd run) = (sent w ++ [logout_request API_BASE_URL w])%list /\
  console (snd run) =
    (console w ++ logout_log (network (sent w ++ [logout_request API_BASE_URL w])))%list.
Proof.
  cbv zeta. unfold dispatch.
  destruct (handleLogout_run w)
    as (w' & -> & Htok & Hflag & Hauth & Hsec & Hsent & Hlog).
  rewrite Hauth.
  destruct (isAuthenticated (ui w)); cbn [Bool.eqb fst snd];
    unfold effect_isAuthenticated; rewrite ?Hauth; cbn [snd ret]; auto 10.
Qed.

(** ** The token, from login to logout *)

Lemma call_request_authorization (w : world) (c : api_call) :
  authorization (call_request API_BASE_URL w c) =
    (fun t => "Bearer " ++ t) <$> stored_token w.
Proof.
  destruct (call_options_plain c) as [Hh Hc].
  unfold authorization, call_request, request_in, spread.
  cbn [req_init headers]. rewrite Hh. cbn [from_option default].
  rewrite headers_in_Authorization. now destruct (stored_token w).
Qed.

Lemma authAPI_login_perform (email password : string) (w : world) :
  snd (authAPI_login network API_BASE_URL email password w) =
    snd (perform network API_BASE_URL (Login email password) w).
Proof. cbn [perform]. now rewrite void_run. Qed.

(** C8: when the login request is answered 2xx with a body whose [token]
    is a non-empty string [t], [login] returns that body, [t] is what
    [getAuthToken] reads afterwards, and the request of every later call of
    the resource modules carries [Authorization: Bearer t].  After
    [logout], whatever the network did with the logout request, no token
    is stored and the request of every later call has no [Authorization]
    header. *)
Theorem token_lifecycle :
  (forall email password w r body t,
     network (sent (snd (authAPI_login network API_BASE_URL email password w)))
       = Resolved r ->
     ok r = true -> json r = Some body ->
     get body "token" = Return (VStr t) -> t <> "" ->
     let w1 := snd (authAPI_login network API_BASE_URL email password w) in
     fst (authAPI_login network API_BASE_URL email password w) = Return body /\
     fst (getAuthToken w1) = Return (Some t) /\
     forall c,
       sent (snd (perform network API_BASE_URL c w1))
         = (sent w1 ++ [call_request API_BASE_URL w1 c])%list /\
       authorization (call_request API_BASE_URL w1 c) = Some ("Bearer " ++ t)) /\
  (forall w,
     let w2 := snd (authAPI_logout network API_BASE_URL w) in
     fst (getAuthToken w2) = Return None /\
     forall c,
       sent (snd (perform network API_BASE_URL c w2))
         = (sent w2 ++ [call_request API_BASE_URL w2 c])%list /\
       authorization (call_request API_BASE_URL w2 c) = None).
Proof.
  split.
  - intros email password w r body t Hanswer Hok Hjson Htoken Hne. cbv zeta.
    rewrite authAPI_login_perform in Hanswer.
    destruct (perform_shape (Login email password) w) as (Hsent & _ & _ & _).
    rewrite Hsent in Hanswer. clear Hsent.
    unfold call_request in Hanswer. cbn [call_url call_options] in Hanswer.
    unfold authAPI_login. rewrite guarded_run. unfold with_method in Hanswer.
    rewrite Hanswer, Hok.
    unfold bind, lift. rewrite response_json_run, Hjson, Htoken.
    assert (Htruthy : truthy (VStr t) = true).
    { cbn. destruct (String.eqb_spec t ""); [contradiction | reflexivity]. }
    rewrite Htruthy, to_string_string. cbn [fst snd localStorage_setItem ret].
    split; [reflexivity |].
    assert (Hstored : forall w0,
      stored_token (with_localStorage <["authToken" := t]> w0) = Some t).
    { intros w0. unfold stored_token. cbn. rewrite lookup_insert_eq.
      destruct (String.eqb_spec t ""); [contradiction | reflexivity]. }
    split.
    + unfold getAuthToken, localStorage_getItem. cbn. now rewrite lookup_insert_eq.
    + intros c. split.
      * destruct (perform_shape c (with_localStorage <["authToken" := t]>
          (after_request w (request_in w (API_BASE_URL ++ "/auth/login")
             {| method := Some "POST";
                body := Some (JSONText (VObj [("email", VStr email);
                                              ("password", VStr password)]));
                headers := None; credentials := None |}))))
          as (Hsent & _). exact Hsent.
      * rewrite call_request_authorization, Hstored. reflexivity.
  - intros w. cbv zeta.
    destruct (authAPI_logout_run w) as (w2 & -> & Hls & _). cbn [snd].
    assert (Hstored : stored_token w2 = None).
    { unfold stored_token. now rewrite Hls, lookup_delete_eq. }
    split.
    + unfold getAuthToken, localStorage_getItem. cbn.
      now rewrite Hls, lookup_delete_eq.
    + intros c. split.
      * now destruct (perform_shape c w2) as (Hsent & _).
      * rewrite call_request_authorization, Hstored. reflexivity.
Qed.

(** ** Upload *)

(** C10: a file that fails validation makes [uploadImage] throw [Error]
    with the validation message and leaves the world as it was, so no
    request is issued; a file that passes has its upload request issued;
    hence a request is issued only for files that pass. *)
Theorem uploadImage_validates_first (file : File.t) (w : world) :
  (valid (validateImageFile file) = false ->
     exists msg, error (validateImageFile file) = Some msg /\
       uploadImage network file w = (Throw (Error msg), w)) /\
  (valid (validateImageFile file) = true ->
     sent (snd (uploadImage network file w)) = (sent w ++ [upload_request file])%list) /\
  (sent (snd (uploadImage network file w)) <> sent w ->
     valid (validateImageFile file) = true).
Proof.
  assert (Hinvalid : valid (validateImageFile file) = false ->
     exists msg, error (validateImageFile file) = Some msg /\
       uploadImage network file w = (Throw (Error msg), w)).
  { intros Hv. unfold uploadImage. rewrite Hv. cbn [negb].
    rewrite validateImageFile_cases in *.
    destruct (String.prefix "image/" (File.type file));
      [destruct (_ <? _)%N |]; try discriminate; eexists; split; reflexivity. }
  split; [exact Hinvalid | split].
  - intros Hv. unfold uploadImage. rewrite Hv. cbn [negb].
    unfold try_catch, bind. rewrite fetch_run. cbv zeta. unfold settle.
    destruct (network _) as [r | e].
    + destruct (ok r); cbn [negb]; unfold throw, lift, ret;
        rewrite ?response_json_run;
        repeat match goal with
        | |- context [match json ?r with _ => _ end] => destruct (json r)
        | |- context [match get ?v ?p with _ => _ end] => destruct (get v p)
        | |- context [match get_opt ?v ?p with _ => _ end] => destruct (get_opt v p)
        | |- context [truthy ?v] => destruct (truthy v)
        | |- context [instanceof_Error ?e] => destruct (instanceof_Error e)
        | |- _ => progress cbn
        end; reflexivity.
    + destruct (instanceof_Error e); reflexivity.
  - intros Hsent. destruct (valid (validateImageFile file)) eqn:Hv; [reflexivity |].
    destruct (Hinvalid eq_refl) as (msg & _ & Hrun).
    rewrite Hrun in Hsent. now contradiction Hsent.
Qed.

(** ** Loading the lists *)

Lemma request_in_storage (w w' : world) (url : string) (options : RequestInit) :
  localStorage w' = localStorage w ->
  request_in w' url options = request_in w url options.
Proof.
  intros H. unfold request_in, headers_in, createHeaders, getAuthToken,
    localStorage_getItem, bind, ret. cbn. now rewrite H.
Qed.

Lemma issued_app (w w' : world) (reqs : list request) :
  sent w' = (sent w ++ reqs)%list ->
  issued w w' = map (fun req => (req_url req, method (req_init req))) reqs.
Proof. intros H. unfold issued. now rewrite H, drop_app_length. Qed.

(** A list call with its [.catch(() => [])]: one request, and a list in any
    case. *)
Lemma list_call_run (url msg : string) (w : world) :
  try_catch
    (bind (apiRequest network url no_options) (fun response =>
       if negb (ok response) then throw (Error msg)
       else bind (response_json response) (fun data =>
            bind (lift (get data "data")) (fun items =>
            ret (js_or items (VArr []))))))
    (fun _ => ret (VArr [])) w =
  (Return (list_of_answer (network (sent (after_request w (request_in w url no_options))))),
   after_request w (request_in w url no_options)).
Proof.
  unfold try_catch. rewrite guarded_run. unfold list_of_answer.
  destruct (network _) as [r | e]; [| reflexivity].
  destruct (ok r); [| reflexivity].
  unfold bind, lift, ret. rewrite response_json_run.
  destruct (json r) as [d |]; [| reflexivity].
  destruct (get d "data"); reflexivity.
Qed.

(** [loadUrlsData] never throws, issues the one request for its page and
    touches nothing but the URL list and its envelope. *)
Lemma loadUrlsData_run (page : number) (w : world) :
  exists w',
    loadUrlsData network API_BASE_URL page w = (Return tt, w') /\
    sent w' = (sent w ++ [request_in w (urls_target API_BASE_URL page) no_options])%list /\
    localStorage w' = localStorage w /\
    projects (ui w') = projects (ui w) /\
    skills (ui w') = skills (ui w) /\
    messages (ui w') = messages (ui w) /\
    isAuthenticated (ui w') = isAuthenticated (ui w) /\
    activeSection (ui w') = activeSection (ui w) /\
    currentUrlPage (ui w') = currentUrlPage (ui w).
Proof.
  unfold loadUrlsData, try_catch, urlAPI_getAll.
  unfold bind at 1. rewrite guarded_run. unfold urls_target.
  destruct (network _) as [r | e]; [destruct (ok r) |];
    unfold bind, lift, ret; rewrite ?response_json_run;
    try (destruct (json r) as [d |]);
    try (destruct (urlAPI_normalize page d));
    cbn; eexists; repeat split; reflexivity.
Qed.

(** [loadDashboardData] never throws; it issues the three list requests
    and then the request for the URL page of its render; each of the
    three lists is what its own answer yields, the empty list if that
    call failed. *)
Lemma loadDashboardData_run (render : app_state) (w : world) :
  let g1 := request_in w (projects_target API_BASE_URL) no_options in
  let g2 := request_in w (skills_target API_BASE_URL) no_options in
  let g3 := request_in w (messages_target API_BASE_URL) no_options in
  let g4 := request_in w (urls_target API_BASE_URL (currentUrlPage render)) no_options in
  exists w',
    loadDashboardData network API_BASE_URL render w = (Return tt, w') /\
    sent w' = (sent w ++ [g1; g2; g3; g4])%list /\
    localStorage w' = localStorage w /\
    projects (ui w') = list_of_answer (network (sent w ++ [g1])%list) /\
    skills (ui w') = list_of_answer (network (sent w ++ [g1; g2])%list) /\
    messages (ui w') = list_of_answer (network (sent w ++ [g1; g2; g3])%list) /\
    isAuthenticated (ui w') = isAuthenticated (ui w) /\
    activeSection (ui w') = activeSection (ui w) /\
    currentUrlPage (ui w') = currentUrlPage (ui w).
Proof.
  cbv zeta. unfold loadDashboardData, projectsAPI_getAll, skillsAPI_getAll,
    messagesAPI_getAll.
  unfold try_catch at 1. unfold bind at 1. rewrite list_call_run.
  unfold bind at 1. rewrite list_call_run.
  unfold bind at 1. rewrite list_call_run.
  set (w1 := after_request w _).
  set (w2 := after_request w1 _).
  set (w3 := after_request w2 _).
  unfold bind, setProjects, setSkills, setMessages. cbn [fst snd].
  match goal with
  | |- context [loadUrlsData _ _ ?p ?x] =>
      destruct (loadUrlsData_run p x) as (w' & -> & Hsent & Hls & Hp & Hs & Hm & Ha & Hsec & Hcur)
  end.
  exists w'. split; [reflexivity |].
  cbn in Hsent, Hls, Hp, Hs, Hm, Ha, Hsec, Hcur.
  rewrite !(request_in_storage _ w) in Hsent by reflexivity.
  subst w3 w2 w1. cbn in *.
  rewrite !(request_in_storage _ w) in * by reflexivity.
  rewrite <- !app_assoc in *. cbn in *.
  repeat split; assumption.
Qed.


(** After [loadUrlsData], the URL list and its envelope are what the
    answer to its request yields. *)
Lemma loadUrlsData_state (page : number) (w : world) :
  let g := request_in w (urls_target API_BASE_URL page) no_options in
  let w' := snd (loadUrlsData network API_BASE_URL page w) in
  urls (ui w') = data (page_of_answer page (network (sent w ++ [g])%list)) /\
  urlPagination (ui w') = page_info (page_of_answer page (network (sent w ++ [g])%list)).
Proof.
  cbv zeta.
  remember (snd (loadUrlsData network API_BASE_URL page w)) as w' eqn:Hw'.
  revert Hw'. unfold loadUrlsData, try_catch, urlAPI_getAll.
  unfold bind at 1. rewrite guarded_run. unfold urls_target, page_of_answer.
  cbn [sent after_request with_sent].
  destruct (network _) as [r | e]; [destruct (ok r) |];
    unfold bind, lift, ret; rewrite ?response_json_run;
    try (destruct (json r) as [d |]);
    try (destruct (urlAPI_normalize page d));
    cbn; intros ->; split; reflexivity.
Qed.

Lemma loadUrlsData_reloads (page : number) (w : world) :
  urls_reloaded network API_BASE_URL page w
    (snd (loadUrlsData network API_BASE_URL page w)).
Proof.
  unfold urls_reloaded.
  destruct (loadUrlsData_state page w) as [Hurls Hpag].
  destruct (loadUrlsData_run page w) as (w' & Hrun & Hsent & _ & Hp & Hs & Hm & _).
  rewrite Hrun in *. cbn [snd] in *.
  repeat split; try assumption. now rewrite (issued_app _ _ _ Hsent).
Qed.

Lemma reload_all_issued (w w' : world) (page : number) :
  sent w' = (sent w ++ [request_in w (projects_target API_BASE_URL) no_options;
                        request_in w (skills_target API_BASE_URL) no_options;
                        request_in w (messages_target API_BASE_URL) no_options;
                        request_in w (urls_target API_BASE_URL page) no_options])%list ->
  issued w w' = reload_all API_BASE_URL page.
Proof. intros H. now rewrite (issued_app _ _ _ H). Qed.

Lemma loadDashboardData_reloads (render : app_state) (w : world) :
  all_reloaded network API_BASE_URL (currentUrlPage render) w
    (snd (loadDashboardData network API_BASE_URL render w)).
Proof.
  unfold all_reloaded.
  destruct (loadDashboardData_run render w) as (w' & Hrun & Hsent & _ & Hp & Hs & Hm & _).
  assert (Hurls :
    let g1 := request_in w (projects_target API_BASE_URL) no_options in
    let g2 := request_in w (skills_target API_BASE_URL) no_options in
    let g3 := request_in w (messages_target API_BASE_URL) no_options in
    let g4 := request_in w (urls_target API_BASE_URL (currentUrlPage render)) no_options in
    urls (ui (snd (loadDashboardData network API_BASE_URL render w))) =
      data (page_of_answer (currentUrlPage render)
              (network (sent w ++ [g1; g2; g3; g4])%list)) /\
    urlPagination (ui (snd (loadDashboardData network API_BASE_URL render w))) =
      page_info (page_of_answer (currentUrlPage render)
                   (network (sent w ++ [g1; g2; g3; g4])%list))).
  { clear. cbv zeta.
    remember (snd (loadDashboardData network API_BASE_URL render w)) as w' eqn:Hw'.
    revert Hw'.
    unfold loadDashboardData, projectsAPI_getAll, skillsAPI_getAll, messagesAPI_getAll.
    unfold try_catch at 1. unfold bind at 1. rewrite list_call_run.
    unfold bind at 1. rewrite list_call_run.
    unfold bind at 1. rewrite list_call_run.
    unfold bind, setProjects, setSkills, setMessages. cbn [fst snd].
    match goal with
    | |- context [loadUrlsData _ _ ?p ?x] =>
        pose proof (loadUrlsData_state p x) as Hstate;
        destruct (loadUrlsData_run p x) as (w'' & Hrun & _)
    end.
    rewrite Hrun in *. cbn [snd] in *. intros ->. cbv zeta in Hstate.
    cbn [sent after_request with_sent with_ui] in Hstate.
    rewrite !(request_in_storage _ w) in Hstate by reflexivity.
    rewrite <- !app_assoc in Hstate. exact Hstate. }
  cbv zeta in Hurls. destruct Hurls as [Hurls Hpag].
  rewrite Hrun in *. cbn [snd] in *.
  repeat split; try assumption. now apply reload_all_issued.
Qed.


(** ** Mutation handlers *)

(** A handler is its API call followed, when the call returns, by its
    reload. *)
Lemma handle_run (render : app_state) (m : mutation) (w : world) :
  handle network API_BASE_URL render m w =
    match perform network API_BASE_URL (mutation_call m) w with
    | (Return _, w1) =>
        if is_url_mutation m
        then loadUrlsData network API_BASE_URL (currentUrlPage render) w1
        else loadDashboardData network API_BASE_URL render w1
    | (Throw e, w1) => (Throw e, w1)
    end.
Proof.
  destruct m; cbn [handle mutation_call perform is_url_mutation];
    rewrite void_run;
    unfold handleAddProject, handleUpdateProject, handleDeleteProject,
      handleAddSkill, handleUpdateSkill, handleDeleteSkill,
      handleAddUrl, handleUpdateUrl, handleDeleteUrl, bind;
    match goal with |- context [fst ?x] => destruct x as [[v | e] w1] end;
    reflexivity.
Qed.

(** Handlers leave [isAuthenticated] alone, so a turn that runs one is
    that handler, as a closure of the current state, and nothing more. *)
Lemma dispatch_handle (m : mutation) (w : world) :
  dispatch network API_BASE_URL (fun render => handle network API_BASE_URL render m) w
  = handle network API_BASE_URL (ui w) m w.
Proof.
  unfold dispatch. rewrite handle_run.
  destruct (perform_shape (mutation_call m) w) as (_ & Hui & _).
  destruct (perform network API_BASE_URL (mutation_call m) w) as [[[] | e] w1];
    cbn [fst snd] in Hui.
  - destruct (is_url_mutation m).
    + destruct (loadUrlsData_run (currentUrlPage (ui w)) w1)
        as (w' & -> & _ & _ & _ & _ & _ & Hauth & _).
      now rewrite Hauth, Hui, Bool.eqb_reflx.
    + destruct (loadDashboardData_run (ui w) w1)
        as (w' & -> & _ & _ & _ & _ & _ & Hauth & _).
      now rewrite Hauth, Hui, Bool.eqb_reflx.
  - now rewrite Hui, Bool.eqb_reflx.
Qed.

(** A handler's reload, started in the world its API call left. *)
Lemma handle_reloads (render : app_state) (m : mutation) (w1 : world) :
  let reload :=
    if is_url_mutation m
    then loadUrlsData network API_BASE_URL (currentUrlPage render) w1
    else loadDashboardData network API_BASE_URL render w1 in
  fst reload = Return tt /\
  if is_url_mutation m
  then urls_reloaded network API_BASE_URL (currentUrlPage render) w1 (snd reload)
  else all_reloaded network API_BASE_URL (currentUrlPage render) w1 (snd reload).
Proof.
  cbv zeta. destruct (is_url_mutation m).
  - split; [| apply loadUrlsData_reloads].
    now destruct (loadUrlsData_run (currentUrlPage render) w1) as (w' & -> & _).
  - split; [| apply loadDashboardData_reloads].
    now destruct (loadDashboardData_run render w1) as (w' & -> & _).
Qed.

(** C7, amended: a mutation handler first makes its API call, one request
    that leaves the controller state alone.  When that call fails, the
    handler fails with the same error, issues no further request and
    changes no list.  When it returns, a project or skill handler reloads
    all four lists: it issues the projects, skills and messages requests
    and the request for the URL list at the current URL page, and sets
    each of the four lists (and the URL envelope) from the answer to its
    own request.  A URL handler reloads the URL list alone: it issues the
    one request for the current URL page, sets the URL list and its
    envelope from the answer, and leaves the projects, skills and messages
    lists as they were. *)
Theorem mutation_then_reload (m : mutation) (w : world) :
  let called := perform network API_BASE_URL (mutation_call m) w in
  let w1 := snd called in
  let run := dispatch network API_BASE_URL
               (fun render => handle network API_BASE_URL render m) w in
  let page := currentUrlPage (ui w) in
  sent w1 = (sent w ++ [call_request API_BASE_URL w (mutation_call m)])%list /\
  ui w1 = ui w /\
  match fst called with
  | Throw e => run = (Throw e, w1)
  | Return _ =>
      fst run = Return tt /\
      if is_url_mutation m
      then urls_reloaded network API_BASE_URL page w1 (snd run)
      else all_reloaded network API_BASE_URL page w1 (snd run)
  end.
Proof.
  cbv zeta. rewrite dispatch_handle, handle_run.
  destruct (perform_shape (mutation_call m) w) as (Hsent & Hui & _).
  split; [exact Hsent |]. split; [exact Hui |].
  destruct (perform network API_BASE_URL (mutation_call m) w) as [[[] | e] w1];
    cbn [fst snd] in *; [| reflexivity].
  exact (handle_reloads (ui w) m w1).
Qed.

(** ** The URL list call *)

Lemma urlAPI_getAll_run (page limit : number) (w : world) :
  let w' := after_request w (call_request API_BASE_URL w (UrlsGetAll page limit)) in
  urlAPI_getAll network API_BASE_URL page limit w =
    (match network (sent w') with
     | Rejected e => Throw e
     | Resolved r =>
         if ok r then
           match json r with
           | Some result => urlAPI_normalize page result
           | None => Throw SyntaxError
           end
         else Throw (Error "Failed to fetch URLs")
     end, w').
Proof.
  cbv zeta. unfold urlAPI_getAll, call_request. cbn [call_url call_options].
  rewrite guarded_run.
  destruct (network _) as [r | e]; [destruct (ok r) |]; try reflexivity.
  unfold bind, lift. rewrite response_json_run.
  destruct (json r); reflexivity.
Qed.

(** Legacy shape: a 2xx answer whose body is a bare array of [n] records
    comes back as that array inside the synthetic single-page envelope. *)
Lemma urlAPI_getAll_legacy (page limit : number) (w : world) (r : response)
    (records : list value) :
  network (sent (snd (urlAPI_getAll network API_BASE_URL page limit w))) = Resolved r ->
  ok r = true -> json r = Some (VArr records) ->
  fst (urlAPI_getAll network API_BASE_URL page limit w) =
    Return {| data := records; page_info := synthetic page (length records) |}.
Proof.
  rewrite urlAPI_getAll_run. cbv zeta. cbn [fst snd].
  intros -> -> ->. apply urlAPI_normalize_array.
Qed.

(** Malformed shape, [null] apart: a 2xx answer whose body is neither an
    array nor passes the nested-shape test degrades to the empty list. *)
Lemma urlAPI_getAll_malformed (page limit : number) (w : world) (r : response)
    (result : value) :
  network (sent (snd (urlAPI_getAll network API_BASE_URL page limit w))) = Resolved r ->
  ok r = true -> json r = Some result ->
  result <> VNull -> result <> VUndefined ->
  isArray result = false -> nested_shape result = false ->
  fst (urlAPI_getAll network API_BASE_URL page limit w) =
    Return {| data := []; page_info := synthetic page 0 |}.
Proof.
  rewrite urlAPI_getAll_run. cbv zeta. cbn [fst snd].
  intros -> -> ->. apply urlAPI_normalize_other.
Qed.

End Properties.

(** C1, at a nested envelope whose [urls] member is not an array: the list
    is replaced by [[]], but [totalItems] is read from [urls.length] all
    the same and comes out [undefined]. *)
Theorem getAll_totalItems_undefined {Num : Number} (API_BASE_URL txt : string)
    (page limit : number) (w : world) :
  fst (urlAPI_getAll
         (answering {| status := 200; text := txt; json := Some urls_not_an_array |})
         API_BASE_URL page limit w) =
    Return {| data := [];
              page_info := {| currentPage := VNum page;
                              totalPages := VNum (num_of_nat 1);
                              totalItems := VUndefined;
                              hasNext := VBool false;
                              hasPrev := VBool false |} |}.
Proof. rewrite urlAPI_getAll_run. reflexivity. Qed.

(** C2, at the body [null]: reading [result.success] throws, so the call
    fails with a [TypeError] instead of degrading to the empty list. *)
Theorem getAll_null_body_throws {Num : Number} (API_BASE_URL txt : string)
    (page limit : number) (w : world) :
  fst (urlAPI_getAll
         (answering {| status := 200; text := txt; json := Some VNull |})
         API_BASE_URL page limit w) = Throw TypeError.
Proof. rewrite urlAPI_getAll_run. reflexivity. Qed.

(** * The statements on concrete inputs *)

Lemma api_call_fails_iff_not_2xx_witness :
  fst (perform failing_server localhost ProjectsGetAll fresh_world) =
    Throw (Error "Failed to fetch projects").
Proof.
  apply (proj1 (api_call_fails_iff_not_2xx failing_server localhost ProjectsGetAll
                  fresh_world _ eq_refl)).
  cbn. lia.
Defined.

Lemma token_lifecycle_witness :
  authorization
    (call_request localhost
       (snd (authAPI_login demo_server localhost "admin@example.com" "secret"
               fresh_world))
       ProjectsGetAll) = Some "Bearer t0k3n".
Proof.
  apply (proj1 (token_lifecycle demo_server localhost)
           "admin@example.com" "secret" fresh_world
           {| status := 200; text := ""; json := Some (VObj [("token", VStr "t0k3n")]) |}
           (VObj [("token", VStr "t0k3n")]) "t0k3n");
    [reflexivity | reflexivity | reflexivity | reflexivity | discriminate].
Defined.

Lemma uploadImage_validates_first_witness :
  exists msg,
    error (validateImageFile notes_txt) = Some msg /\
    uploadImage demo_server notes_txt fresh_world = (Throw (Error msg), fresh_world).
Proof.
  apply (proj1 (uploadImage_validates_first demo_server notes_txt fresh_world)).
  reflexivity.
Defined.


Lemma mutation_then_reload_witness :
  urls (ui (snd (dispatch (backend true) localhost
                   (fun render => handle (backend true) localhost render (DeleteUrl "66f0"))
                   (on_screen (backend true) "urls")))) = [blog_url].
Proof.
  pose proof (mutation_then_reload (backend true) localhost
                (DeleteUrl "66f0") (on_screen (backend true) "urls")) as H.
  cbv zeta in H. destruct H as (_ & _ & H).
  change (fst (perform (backend true) localhost (mutation_call (DeleteUrl "66f0"))
                 (on_screen (backend true) "urls")))
    with (@Return IntegerNumbers unit tt) in H.
  destruct H as (_ & _ & Hurls & _).
  rewrite Hurls. vm_compute. reflexivity.
Defined.

(** C7 as stated fails: the operator is logged in and on the projects
    screen; the server answers the create request with status 500;
    [handleAddProject] fails after that one request, no list request is
    issued and the controller state is what it was. *)
Lemma failed_mutation_reloads_nothing :
  let w := on_screen (backend false) "projects" in
  let run := dispatch (backend false) localhost
               (fun render => handle (backend false) localhost render
                                (AddProject new_project))
               w in
  isAuthenticated (ui w) = true /\ loading (ui w) = false /\
  activeSection (ui w) = "projects" /\
  fst run = Throw (Error "Failed to create project") /\
  issued w (snd run) = [(localhost ++ "/portfolio/projects", Some "POST")] /\
  ui (snd run) = ui w /\
  ~ reloads_all_lists (backend false) localhost (AddProject new_project) w.
Proof.
  cbv zeta.
  assert (Hissued : issued (on_screen (backend false) "projects")
    (snd (dispatch (backend false) localhost
            (fun render => handle (backend false) localhost render
                             (AddProject new_project))
            (on_screen (backend false) "projects")))
    = [(localhost ++ "/portfolio/projects", Some "POST")]) by (vm_compute; reflexivity).
  split; [vm_compute; reflexivity |].
  split; [vm_compute; reflexivity |].
  split; [vm_compute; reflexivity |].
  split; [vm_compute; reflexivity |].
  split; [exact Hissued |].
  split; [vm_compute; reflexivity |].
  intros [before H]. rewrite Hissued in H.
  apply (f_equal (@length _)) in H. rewrite length_app in H. cbn in H. lia.
Qed.


(** * Further properties of the data-access layer *)

Section MoreProperties.

Context {Num : Number}.
Variable network : list request -> fetch_result.
Variable API_BASE_URL : string.

(** ** Headers *)

(** X1: [createHeaders] never fails and touches nothing; it keeps every
    header of the caller except that [Content-Type] is forced to
    [application/json] for a non-multipart body and [Authorization] is
    forced to the stored token's when there is one. *)
Theorem createHeaders_merges (additional : gmap string string) (isFormData : bool)
    (w : world) :
  exists h, createHeaders additional isFormData w = (Return h, w) /\
    (forall key, key <> "Content-Type" -> key <> "Authorization" ->
       h !! key = additional !! key) /\
    h !! "Content-Type" =
      (if isFormData then additional !! "Content-Type" else Some "application/json") /\
    h !! "Authorization" =
      match stored_token w with
      | Some t => Some ("Bearer " ++ t)
      | None => additional !! "Authorization"
      end.
Proof.
  exists (headers_in w additional isFormData).
  split; [apply createHeaders_run |].
  split; [| split; [apply headers_in_Content_Type | apply headers_in_Authorization]].
  intros key Hct Hauth.
  unfold headers_in, createHeaders, getAuthToken, localStorage_getItem, bind, ret.
  cbn.
  destruct (localStorage w !! "authToken") as [t |]; cbn;
    [destruct (String.eqb t ""); cbn |];
    destruct isFormData; cbn;
    rewrite ?lookup_insert_ne by congruence; reflexivity.
Qed.

(** ** Login *)

Lemma authAPI_login_cases (email password : string) (w : world) :
  let run := authAPI_login network API_BASE_URL email password w in
  ui (snd run) = ui w /\ console (snd run) = console w /\
  sent (snd run) = (sent w ++ [call_request API_BASE_URL w (Login email password)])%list /\
  match fst run with
  | Throw _ => localStorage (snd run) = localStorage w
  | Return body =>
      exists token, get body "token" = Return token /\
        if truthy token then
          exists stored, to_string token = Return stored /\
            localStorage (snd run) = <["authToken" := stored]> (localStorage w)
        else localStorage (snd run) = localStorage w
  end.
Proof.
  cbv zeta. unfold authAPI_login, call_request. cbn [call_url call_options].
  unfold with_method. rewrite guarded_run.
  destruct (network _) as [r | e]; [destruct (ok r) |]; try (repeat split; reflexivity).
  unfold bind, lift. rewrite response_json_run.
  destruct (json r) as [body |]; [| repeat split; reflexivity].
  destruct (get body "token") as [token | e] eqn:Htoken; [| repeat split; reflexivity].
  destruct (truthy token) eqn:Ht.
  - destruct (to_string token) as [stored | e] eqn:Hstored; cbn;
      [| repeat split; reflexivity].
    do 3 (split; [reflexivity |]).
    exists token. rewrite Ht. split; [exact Htoken |].
    exists stored. split; [exact Hstored | reflexivity].
  - cbn. do 3 (split; [reflexivity |]).
    exists token. rewrite Ht. split; [exact Htoken | reflexivity].
Qed.

(** X2: what [authAPI.login] does to storage.  A login that fails, for
    whatever reason, leaves storage as it was, so a token of an earlier
    session stays; a login that returns has stored [String(body.token)]
    when that token is truthy and has otherwise left storage as it was.
    When the answer is 2xx but its token is a value [String] cannot
    convert (an object with a [toString] member of its own, also inside an
    array), the login fails with the [TypeError] of the conversion.  The
    controller state is never touched. *)
Theorem login_storage (email password : string) (w : world) :
  let run := authAPI_login network API_BASE_URL email password w in
  ui (snd run) = ui w /\
  match fst run with
  | Throw _ => localStorage (snd run) = localStorage w
  | Return body =>
      exists token, get body "token" = Return token /\
        if truthy token then
          exists stored, to_string token = Return stored /\
            localStorage (snd run) = <["authToken" := stored]> (localStorage w)
        else localStorage (snd run) = localStorage w
  end /\
  (forall r body token e,
     network (sent w ++ [call_request API_BASE_URL w (Login email password)])%list
       = Resolved r ->
     ok r = true -> json r = Some body -> get body "token" = Return token ->
     truthy token = true -> to_string token = Throw e ->
     e = TypeError /\ fst run = Throw TypeError /\
     localStorage (snd run) = localStorage w).
Proof.
  destruct (authAPI_login_cases email password w) as (Hui & _ & _ & Hstore).
  split; [exact Hui |]. split; [exact Hstore |].
  intros r body token e Hnet Hok Hjson Htoken Ht Hstr. cbv zeta.
  apply to_string_throws in Hstr as He. subst e. split; [reflexivity |].
  unfold authAPI_login. rewrite guarded_run.
  unfold call_request in Hnet. cbn [call_url call_options] in Hnet.
  unfold with_method in Hnet. cbn [sent after_request with_sent].
  rewrite Hnet, Hok. unfold bind, lift. rewrite response_json_run, Hjson, Htoken, Ht, Hstr.
  split; reflexivity.
Qed.

(** ** List calls *)

(** X3: the three list calls hand back [body.data] when it is truthy and
    the empty array otherwise, so a call that returns never returns a
    falsy value. *)
Theorem list_calls_default_to_empty (call : M value) (w : world) :
  In call [projectsAPI_getAll network API_BASE_URL;
           skillsAPI_getAll network API_BASE_URL;
           messagesAPI_getAll network API_BASE_URL] ->
  (forall v, fst (call w) = Return v -> truthy v = true) /\
  (forall r body items,
     network (sent (snd (call w))) = Resolved r ->
     ok r = true -> json r = Some body -> get body "data" = Return items ->
     fst (call w) = Return (if truthy items then items else VArr [])).
Proof.
  intros Hcall.
  assert (Hshape : exists url msg, call w =
    bind (apiRequest network url no_options) (fun response =>
       if negb (ok response) then throw (Error msg)
       else bind (response_json response) (fun data =>
            bind (lift (get data "data")) (fun items =>
            ret (js_or items (VArr []))))) w).
  { cbn in Hcall. destruct Hcall as [<- | [<- | [<- | []]]];
      do 2 eexists; reflexivity. }
  destruct Hshape as (url & msg & ->). rewrite guarded_run.
  destruct (network _) as [r | e] eqn:Hnet; [destruct (ok r) eqn:Hok |].
  - unfold bind, lift, ret. rewrite response_json_run.
    destruct (json r) as [body |] eqn:Hjson.
    + destruct (get body "data") as [items | e] eqn:Hget; cbn [fst snd].
      * split.
        -- intros v [= <-]. apply js_or_truthy. reflexivity.
        -- intros r' body' items' Hnet'. rewrite Hnet in Hnet'.
           injection Hnet' as <-. intros _ Hj Hg.
           rewrite Hjson in Hj. injection Hj as <-.
           rewrite Hget in Hg. injection Hg as <-. reflexivity.
      * split; [discriminate |].
        intros r' body' items' Hnet'. rewrite Hnet in Hnet'.
        injection Hnet' as <-. intros _ Hj Hg.
        rewrite Hjson in Hj. injection Hj as <-. congruence.
    + cbn [fst snd]. split; [discriminate |].
      intros r' body' items' Hnet'. rewrite Hnet in Hnet'.
      injection Hnet' as <-. congruence.
  - cbn [fst snd]. split; [discriminate |].
    intros r' body' items' Hnet'. rewrite Hnet in Hnet'.
    injection Hnet' as <-. congruence.
  - cbn [fst snd]. split; [discriminate |].
    intros r' body' items' Hnet'. rewrite Hnet in Hnet'. discriminate.
Qed.

(** ** Payloads *)

(** X4: a create or update call for a project or a skill sends its payload
    through unchanged; a multipart form goes out with no [Content-Type]
    header, a plain object as JSON text with
    [Content-Type: application/json]. *)
Theorem payload_decides_content_type (c : api_call) (x : payload) (w : world) :
  (c = ProjectsCreate x \/ c = SkillsCreate x \/
   (exists id, c = ProjectsUpdate id x) \/ (exists id, c = SkillsUpdate id x)) ->
  sent (snd (perform network API_BASE_URL c w))
    = (sent w ++ [call_request API_BASE_URL w c])%list /\
  body (req_init (call_request API_BASE_URL w c)) =
    Some (match x with Multipart fd => FormBody fd | Plain v => JSONText v end) /\
  content_type (call_request API_BASE_URL w c) =
    match x with Multipart _ => None | Plain _ => Some "application/json" end.
Proof.
  intros Hc.
  split; [now destruct (perform_shape network API_BASE_URL c w) as (Hsent & _) |].
  assert (Hopts : exists m, call_options c = with_method m (Some (payload_body x))).
  { destruct Hc as [-> | [-> | [[id ->] | [id ->]]]]; eexists; reflexivity. }
  destruct Hopts as [m Hopts].
  unfold content_type, call_request, request_in, spread. rewrite Hopts.
  cbn [req_init headers body with_method from_option default instanceof_FormData].
  rewrite headers_in_Content_Type.
  destruct x; cbn; split; reflexivity.
Qed.

(** ** The URL list envelope *)

(** X5: a nested envelope that carries an array of URLs but no pagination
    object is normalized exactly like that array sent bare. *)
Theorem nested_without_pagination_is_legacy (page : number) (result s d pg : value)
    (records : list value) :
  get result "success" = Return s -> truthy s = true ->
  get result "data" = Return d -> truthy d = true ->
  get d "urls" = Return (VArr records) ->
  get d "pagination" = Return pg -> truthy pg = false ->
  urlAPI_normalize page result = urlAPI_normalize page (VArr records).
Proof.
  intros Hs Ts Hd Td Hu Hp Tp.
  rewrite urlAPI_normalize_array. unfold urlAPI_normalize.
  rewrite Hs. cbn [bind_outcome]. rewrite Ts, Hd. cbn [bind_outcome].
  rewrite Td, Hu, Hp. cbn [bind_outcome].
  assert (Hpg : js_or pg (VObj []) = VObj []) by (unfold js_or; now rewrite Tp).
  rewrite Hpg. reflexivity.
Qed.

(** ** Upload *)

Lemma get_opt_throws (v : value) (p : string) (e : exn) :
  get_opt v p = Throw e -> e = TypeError.
Proof. destruct v; cbn; congruence. Qed.

Ltac upload_cases :=
  repeat match goal with
  | |- _ => progress cbn
  | |- context [match json ?r with _ => _ end] =>
      let H := fresh "Hjson" in destruct (json r) eqn:H
  | |- context [match get ?v ?p with _ => _ end] =>
      let H := fresh "Hget" in
      destruct (get v p) eqn:H; [| apply get_throws in H; subst]
  | |- context [match get_opt ?v ?p with _ => _ end] =>
      let H := fresh "Hget" in
      destruct (get_opt v p) eqn:H; [| apply get_opt_throws in H; subst]
  | |- context [truthy ?v] =>
      let H := fresh "Htruthy" in destruct (truthy v) eqn:H
  end.

Lemma uploadImage_valid_run (file : File.t) (w : world) :
  valid (validateImageFile file) = true ->
  uploadImage network file w =
    try_catch
      (bind (fetch network "/api/upload" (req_init (upload_request file)))
         (fun response =>
            if negb (ok response) then
              throw (Error ("Upload failed: " ++ pretty (status response) ++ " "
                              ++ text response))
            else
              bind (response_json response) (fun result =>
              bind (lift (get result "url")) (fun url =>
              bind (if truthy url then ret url
                    else bind (lift (get result "data")) (fun result_data =>
                         lift (get_opt result_data "url"))) (fun imageUrl =>
              if negb (truthy imageUrl)
              then throw (Error "No image URL returned from server")
              else ret imageUrl)))))
      (fun error =>
         if instanceof_Error error then throw error
         else throw (Error "Failed to upload image")) w.
Proof. intros Hv. unfold uploadImage. now rewrite Hv. Qed.


(** X7: when the upload request is answered with a status outside 2xx,
    [uploadImage] fails with [Error('Upload failed: <status> <text>')]:
    here the text the server sent is handed on to the caller. *)
Theorem uploadImage_reports_server_text (file : File.t) (w : world) (r : response) :
  valid (validateImageFile file) = true ->
  network (sent w ++ [upload_request file])%list = Resolved r ->
  ok r = false ->
  fst (uploadImage network file w) =
    Throw (Error ("Upload failed: " ++ pretty (status r) ++ " " ++ text r)).
Proof.
  intros Hv Hnet Hok. rewrite uploadImage_valid_run by assumption.
  unfold try_catch, bind. rewrite fetch_run. cbv zeta. unfold settle.
  change (after_request w _) with (after_request w (upload_request file)).
  cbn [sent after_request with_sent]. rewrite Hnet, Hok. reflexivity.
Qed.

(** X8: a value [uploadImage] returns is never falsy; it is the [url]
    member of a 2xx JSON answer when that is truthy, and otherwise the
    [url] member of its [data] member. *)
Theorem uploadImage_returns_url (file : File.t) (w : world) :
  (forall v, fst (uploadImage network file w) = Return v -> truthy v = true) /\
  (forall r result url,
     valid (validateImageFile file) = true ->
     network (sent w ++ [upload_request file])%list = Resolved r ->
     ok r = true -> json r = Some result ->
     get result "url" = Return url ->
     (truthy url = true -> fst (uploadImage network file w) = Return url) /\
     (forall d nested,
        truthy url = false -> get result "data" = Return d ->
        get_opt d "url" = Return nested -> truthy nested = true ->
        fst (uploadImage network file w) = Return nested)).
Proof.
  split.
  - intros v.
    destruct (valid (validateImageFile file)) eqn:Hv.
    + rewrite uploadImage_valid_run by assumption.
      unfold try_catch, bind. rewrite fetch_run. cbv zeta. unfold settle.
      destruct (network _) as [r | e0].
      * destruct (ok r); cbn [negb]; unfold throw, lift, ret;
          rewrite ?response_json_run; upload_cases;
          intros [= <-]; congruence.
      * destruct (instanceof_Error e0); discriminate.
    + unfold uploadImage. rewrite Hv. discriminate.
  - intros r result url Hv Hnet Hok Hjson Hurl.
    rewrite uploadImage_valid_run by assumption.
    unfold try_catch, bind. rewrite fetch_run. cbv zeta. unfold settle.
    change (after_request w _) with (after_request w (upload_request file)).
    cbn [sent after_request with_sent]. rewrite Hnet, Hok. cbn [negb].
    rewrite response_json_run, Hjson. unfold lift. rewrite Hurl. split.
    + intros Ht. rewrite Ht. cbn. now rewrite Ht.
    + intros d nested Ht Hd Hn Htn. rewrite Ht, Hd. cbn. rewrite Hn. cbn.
      now rewrite Htn.
Qed.

(** X9: [uploadImage] calls [fetch] directly, not the wrapper: its request
    has no credentials mode and no headers, hence no [Authorization] even
    when a token is stored; and nothing else in the world changes: not
    storage, not the controller state, not the console. *)
Theorem uploadImage_bypasses_wrapper (file : File.t) (w : world) :
  let w' := snd (uploadImage network file w) in
  localStorage w' = localStorage w /\ ui w' = ui w /\ console w' = console w /\
  forall req, In req (drop (length (sent w)) (sent w')) ->
    req = upload_request file /\
    authorization req = None /\ credentials (req_init req) = None.
Proof.
  cbv zeta.
  destruct (valid (validateImageFile file)) eqn:Hv.
  - assert (Hw : snd (uploadImage network file w) = after_request w (upload_request file)).
    { rewrite uploadImage_valid_run by assumption.
      unfold try_catch, bind. rewrite fetch_run. cbv zeta. unfold settle.
      change (after_request w _) with (after_request w (upload_request file)).
      destruct (network _) as [r | e0].
      - destruct (ok r); cbn [negb]; unfold throw, lift, ret;
          rewrite ?response_json_run; upload_cases; reflexivity.
      - destruct (instanceof_Error e0); reflexivity. }
    rewrite Hw. cbn [localStorage ui console sent after_request with_sent].
    repeat split; rewrite drop_app_length in H; cbn in H;
      destruct H as [<- | []]; reflexivity.
  - unfold uploadImage. rewrite Hv. cbn. repeat split;
      rewrite drop_all in H; destruct H.
Qed.

(** ** The URL list in the controller *)

(** X10: [loadUrlsData] never fails.  When the list call returns, the list
    and its envelope are those of the answer; when the call fails in any
    way, the list is emptied, the envelope is reset to the single empty
    page and the error is logged. *)
Theorem loadUrlsData_settles (page : number) (w : world) :
  let fetched := urlAPI_getAll network API_BASE_URL page (num_of_nat 20) w in
  let run := loadUrlsData network API_BASE_URL page w in
  fst run = Return tt /\
  match fst fetched with
  | Return p =>
      urls (ui (snd run)) = data p /\
      urlPagination (ui (snd run)) = page_info p /\
      console (snd run) = console w
  | Throw e =>
      urls (ui (snd run)) = [] /\
      urlPagination (ui (snd run)) = single_page /\
      console (snd run) =
        (console w ++ [{| level := "error"; label := "Failed to load URLs:";
                          cause := e |}])%list
  end.
Proof.
  cbv zeta. unfold loadUrlsData, try_catch, bind.
  rewrite urlAPI_getAll_run. cbv zeta.
  match goal with |- context [(?o, after_request w ?req)] => destruct o as [p | e] end;
    cbn; repeat split; reflexivity.
Qed.

(** X11: a page change records the page it is given, whatever it is, and
    reloads the URL list at that page without ever failing: it issues the
    one request for that page, sets the URL list and its envelope from the
    answer (the empty single page if the call fails) and leaves the other
    lists alone.  A URL mutation made afterwards, once its call has
    returned, reloads the URL list at that same page in the same way. *)
Theorem page_change_is_remembered (page : number) (w : world) :
  let turn := dispatch network API_BASE_URL
                (fun _ => handleUrlPageChange network API_BASE_URL page) w in
  let w1 := snd turn in
  fst turn = Return tt /\
  currentUrlPage (ui w1) = page /\
  urls_reloaded network API_BASE_URL page w w1 /\
  forall m,
    is_url_mutation m = true ->
    fst (perform network API_BASE_URL (mutation_call m) w1) = Return tt ->
    urls_reloaded network API_BASE_URL page
      (snd (perform network API_BASE_URL (mutation_call m) w1))
      (snd (dispatch network API_BASE_URL
              (fun render => handle network API_BASE_URL render m) w1)).
Proof.
  cbv zeta.
  assert (Hturn : exists w1,
    dispatch network API_BASE_URL
      (fun _ => handleUrlPageChange network API_BASE_URL page) w = (Return tt, w1) /\
    currentUrlPage (ui w1) = page /\
    urls_reloaded network API_BASE_URL page w w1).
  { unfold dispatch, handleUrlPageChange, bind, setCurrentUrlPage.
    match goal with
    | |- context [loadUrlsData _ _ ?p ?x] =>
        pose proof (loadUrlsData_reloads network API_BASE_URL p x) as Hreload;
        destruct (loadUrlsData_run network API_BASE_URL p x)
          as (w1 & Hrun & _ & _ & _ & _ & _ & Ha & _ & Hc)
    end.
    rewrite Hrun in *. cbn [fst snd] in *.
    cbn in Ha, Hc. rewrite Ha, Bool.eqb_reflx.
    exists w1. split; [reflexivity |]. split; [exact Hc |]. exact Hreload. }
  destruct Hturn as (w1 & -> & Hcur & Hreload). cbn [fst snd].
  split; [reflexivity |]. split; [exact Hcur |]. split; [exact Hreload |].
  intros m Hurl Hcall. rewrite dispatch_handle, handle_run.
  destruct (perform network API_BASE_URL (mutation_call m) w1) as [o w2] eqn:Hrun.
  cbn [fst snd] in *. subst o.
  pose proof (handle_reloads network API_BASE_URL (ui w1) m w2) as Hre.
  cbv zeta in Hre. rewrite Hurl, Hcur in *. exact (proj2 Hre).
Qed.

(** ** The session in the controller *)

Lemma loadUrlsData_loading (page : number) (w : world) :
  loading (ui (snd (loadUrlsData network API_BASE_URL page w))) = loading (ui w).
Proof.
  unfold loadUrlsData, try_catch, bind. rewrite urlAPI_getAll_run. cbv zeta.
  destruct (network _) as [r | e]; [destruct (ok r); [destruct (json r) as [d |];
    [destruct (urlAPI_normalize page d) |] |] |]; reflexivity.
Qed.

Lemma loadDashboardData_loading (render : app_state) (w : world) :
  loading (ui (snd (loadDashboardData network API_BASE_URL render w))) = loading (ui w).
Proof.
  unfold loadDashboardData, projectsAPI_getAll, skillsAPI_getAll, messagesAPI_getAll.
  unfold try_catch at 1. unfold bind at 1. rewrite list_call_run.
  unfold bind at 1. rewrite list_call_run.
  unfold bind at 1. rewrite list_call_run.
  unfold bind, setProjects, setSkills, setMessages. cbn [fst snd].
  match goal with
  | |- context [loadUrlsData _ _ ?p ?x] =>
      pose proof (loadUrlsData_loading p x) as Hl;
      destruct (loadUrlsData network API_BASE_URL p x) as [[[] | e] w']
  end; cbn in *; exact Hl.
Qed.

(** X12: a login turn.  When the login call fails, [handleLogin] logs the
    error and fails with the same error; storage and the controller state
    stay as they were and no further request is issued.  When the call
    returns, with or without a token in its body, the [isAuthenticated]
    flag is stored as ['true'] and the controller is authenticated. *)
Theorem handleLogin_outcome (email password : string) (w : world) :
  let called := authAPI_login network API_BASE_URL email password w in
  let turn := dispatch network API_BASE_URL
                (fun _ => handleLogin network API_BASE_URL email password) w in
  match fst called with
  | Throw e =>
      fst turn = Throw e /\
      ui (snd turn) = ui w /\
      localStorage (snd turn) = localStorage w /\
      sent (snd turn) = sent (snd called) /\
      console (snd turn) =
        (console w ++ [{| level := "error"; label := "Login failed:"; cause := e |}])%list
  | Return _ =>
      fst turn = Return tt /\
      isAuthenticated (ui (snd turn)) = true /\
      localStorage (snd turn) !! "isAuthenticated" = Some "true"
  end.
Proof.
  cbv zeta. unfold dispatch, handleLogin, try_catch, bind.
  destruct (authAPI_login_cases email password w) as (Hui & Hlog & _ & Hstore).
  destruct (authAPI_login network API_BASE_URL email password w) as [[body | e] w1];
    cbn [fst snd] in *.
  - cbn. destruct (isAuthenticated (ui w1)) eqn:Hauth; rewrite <- Hui, Hauth;
      cbn [Bool.eqb fst snd].
    + cbn. repeat split. apply lookup_insert_eq.
    + unfold effect_isAuthenticated. cbn [isAuthenticated ui with_ui].
      match goal with
      | |- context [loadDashboardData _ _ ?r ?x] =>
          destruct (loadDashboardData_run network API_BASE_URL r x)
            as (w' & -> & _ & Hls & _ & _ & _ & Ha & _)
      end.
      cbn [snd]. cbn in Hls, Ha. rewrite Ha, Hls.
      repeat split. apply lookup_insert_eq.
  - cbn. rewrite Hui, Bool.eqb_reflx. cbn. rewrite Hlog. repeat split; assumption.
Qed.

(** X13: mounting the controller.  The stored [isAuthenticated] flag alone
    decides: if it is ['true'], the controller is authenticated and the
    four lists are requested, page 1 of the URL list, whether or not a
    token is stored; otherwise the controller stays unauthenticated and
    no request is issued.  In both cases [loading] ends false. *)
Theorem mount_restores_session (w : world) :
  ui w = initial_state ->
  let w' := snd (mount network API_BASE_URL w) in
  fst (mount network API_BASE_URL w) = Return tt /\
  loading (ui w') = false /\
  if decide (localStorage w !! "isAuthenticated" = Some "true") then
    isAuthenticated (ui w') = true /\
    issued w w' = reload_all API_BASE_URL (num_of_nat 1)
  else
    isAuthenticated (ui w') = false /\ sent w' = sent w.
Proof.
  intros Hui. cbv zeta.
  unfold mount, dispatch, effect_mount, localStorage_getItem,
    setIsAuthenticated, setLoading, effect_isAuthenticated, bind.
  rewrite Hui. cbn [isAuthenticated initial_state ret fst snd ui with_ui].
  destruct (decide (localStorage w !! "isAuthenticated" = Some "true")) as [Hflag | Hflag];
    [rewrite (bool_decide_eq_true_2 _ Hflag)
    | rewrite (bool_decide_eq_false_2 _ Hflag); cbn; repeat split; reflexivity].
  cbn [Bool.eqb fst snd isAuthenticated ui with_ui].
  match goal with
  | |- context [loadDashboardData _ _ ?r ?x] =>
      pose proof (loadDashboardData_loading r x) as Hl;
      destruct (loadDashboardData_run network API_BASE_URL r x)
        as (w' & Hrun & Hsent & _ & _ & _ & _ & Ha & _)
  end.
  rewrite Hrun in *. cbn [snd] in *. cbn in Hl, Ha, Hsent.
  rewrite Hui in Hsent. cbn in Hsent.
  repeat split; try assumption.
  apply reload_all_issued. exact Hsent.
Qed.

(** X14: a logout does not clear what the controller has loaded: the
    projects, skills, messages and URL lists, the URL envelope and the
    current URL page are after the logout what they were before. *)
Theorem logout_keeps_loaded_data (w : world) :
  let w' := snd (dispatch network API_BASE_URL
                   (fun _ => handleLogout network API_BASE_URL) w) in
  projects (ui w') = projects (ui w) /\
  skills (ui w') = skills (ui w) /\
  messages (ui w') = messages (ui w) /\
  urls (ui w') = urls (ui w) /\
  urlPagination (ui w') = urlPagination (ui w) /\
  currentUrlPage (ui w') = currentUrlPage (ui w).
Proof.
  cbv zeta. unfold dispatch, handleLogout, bind, try_catch.
  destruct (authAPI_logout_run network API_BASE_URL w) as (w1 & -> & _ & Hui & _).
  cbn. rewrite <- Hui.
  destruct (isAuthenticated (ui w1)); cbn; repeat split; reflexivity.
Qed.

(** X25: [authAPI.logout] removes the token before it builds the logout
    request, so that request, the only one a logout issues, never carries
    an [Authorization] header, whatever was stored. *)
Theorem logout_request_has_no_token (w : world) :
  sent (snd (authAPI_logout network API_BASE_URL w))
    = (sent w ++ [logout_request API_BASE_URL w])%list /\
  authorization (logout_request API_BASE_URL w) = None /\
  credentials (req_init (logout_request API_BASE_URL w)) = Some "include".
Proof.
  destruct (authAPI_logout_run network API_BASE_URL w) as (w' & -> & _ & _ & Hsent & _).
  split; [exact Hsent |].
  unfold authorization, logout_request, request_in, spread, with_method.
  cbn [req_init headers credentials from_option default body instanceof_FormData].
  rewrite headers_in_Authorization. unfold stored_token. cbn.
  rewrite lookup_delete_eq. split; reflexivity.
Qed.

End MoreProperties.

(** * The screens *)

Section Screens.

Context {Num : Number}.
Variable network : list request -> fetch_result.
Variable API_BASE_URL : string.

(** A mutation call is one request and a status check; its outcome is a
    function of the settlement of that request. *)
Lemma perform_mutation (m : mutation) (w : world) :
  let w1 := after_request w (call_request API_BASE_URL w (mutation_call m)) in
  perform network API_BASE_URL (mutation_call m) w =
    (mutation_result m (network (sent w1)), w1).
Proof.
  cbv zeta. unfold mutation_result, call_request.
  destruct m; cbn [mutation_call call_url call_options failure_message];
    unfold perform; rewrite void_run;
    unfold projectsAPI_create, projectsAPI_update, projectsAPI_delete,
      skillsAPI_create, skillsAPI_update, skillsAPI_delete,
      urlAPI_create, urlAPI_update, urlAPI_delete, with_method;
    rewrite guarded_run;
    (destruct (network _) as [r | e]; [destruct (ok r) |]); try reflexivity;
    rewrite response_json_run; destruct (json r); reflexivity.
Qed.

(** A mutation turn of the controller: the call, then the reload if the
    call returned. *)
Lemma mutation_turn (m : mutation) (w : world) :
  let w1 := after_request w (call_request API_BASE_URL w (mutation_call m)) in
  let turn := dispatch network API_BASE_URL
                (fun render => handle network API_BASE_URL render m) w in
  fst turn = mutation_result m (network (sent w1)) /\
  match mutation_result m (network (sent w1)) with
  | Throw _ => snd turn = w1
  | Return _ =>
      if is_url_mutation m
      then urls_reloaded network API_BASE_URL (currentUrlPage (ui w)) w1 (snd turn)
      else all_reloaded network API_BASE_URL (currentUrlPage (ui w)) w1 (snd turn)
  end.
Proof.
  cbv zeta. rewrite dispatch_handle, handle_run, perform_mutation. cbv zeta.
  destruct (mutation_result m _) as [[] | e]; [| split; reflexivity].
  exact (handle_reloads network API_BASE_URL (ui w) m _).
Qed.

(** X26: no failure of the server ends the session on the client.  A
    mutation turn, whatever the answers to its requests (a 401 included),
    leaves the [isAuthenticated] state, the active section and all of
    storage as they were; so does a load of the dashboard data. *)
Theorem failures_never_end_the_session (m : mutation) (render : app_state) (w : world) :
  let turned := snd (dispatch network API_BASE_URL
                       (fun render => handle network API_BASE_URL render m) w) in
  let loaded := snd (loadDashboardData network API_BASE_URL render w) in
  (isAuthenticated (ui turned) = isAuthenticated (ui w) /\
   activeSection (ui turned) = activeSection (ui w) /\
   localStorage turned = localStorage w) /\
  (isAuthenticated (ui loaded) = isAuthenticated (ui w) /\
   activeSection (ui loaded) = activeSection (ui w) /\
   localStorage loaded = localStorage w).
Proof.
  cbv zeta. split.
  - rewrite dispatch_handle, handle_run, perform_mutation. cbv zeta.
    destruct (mutation_result m _) as [[] | e]; [| repeat split; reflexivity].
    destruct (is_url_mutation m).
    + match goal with
      | |- context [loadUrlsData _ _ ?p ?x] =>
          destruct (loadUrlsData_run network API_BASE_URL p x)
            as (w' & -> & _ & Hls & _ & _ & _ & Ha & Hsec & _)
      end.
      cbn [snd]. repeat split; assumption.
    + match goal with
      | |- context [loadDashboardData _ _ ?r ?x] =>
          destruct (loadDashboardData_run network API_BASE_URL r x)
            as (w' & -> & _ & Hls & _ & _ & _ & Ha & Hsec & _)
      end.
      cbn [snd]. repeat split; assumption.
  - destruct (loadDashboardData_run network API_BASE_URL render w)
      as (w' & -> & _ & Hls & _ & _ & _ & Ha & Hsec & _).
    cbn [snd]. repeat split; assumption.
Qed.

(** ** The URL screen *)

Section UrlScreen.

Variable URL_parses : string -> bool.
Variable runtime_message : exn -> string.

Lemma url_submit_sending (s : UrlManagement.state) (w : world) :
  match UrlManagement.editingUrl s with
  | Some url =>
      App_onUpdateUrl network API_BASE_URL (UrlManagement._id url)
        (UrlManagement.form_value (UrlManagement.formData s))
  | None =>
      App_onAddUrl network API_BASE_URL
        (VObj [("fullUrl", VStr (UrlForm.fullUrl (UrlManagement.formData s)))])
  end w =
  dispatch network API_BASE_URL
    (fun render => handle network API_BASE_URL render (url_submission s)) w.
Proof. unfold url_submission. destruct (UrlManagement.editingUrl s); reflexivity. Qed.

(** X16: the URL form is checked before anything is sent: with an empty
    URL, or one that [new URL] rejects, a submit issues no request and
    changes nothing but the error message, which names the failed check. *)
Theorem url_submit_validates (s c : UrlManagement.state) (w : world) :
  UrlForm.fullUrl (UrlManagement.formData s) = "" \/
  URL_parses (UrlForm.fullUrl (UrlManagement.formData s)) = false ->
  url_submit network API_BASE_URL URL_parses runtime_message s (c, w) =
    (UrlManagement.setError
       (if String.eqb (UrlForm.fullUrl (UrlManagement.formData s)) ""
        then "Please enter a URL to shorten" else "Please enter a valid URL") c,
     w).
Proof.
  intros Hbad. unfold url_submit, UrlManagement.handleSubmit.
  destruct (String.eqb_spec (UrlForm.fullUrl (UrlManagement.formData s)) "")
    as [Hempty | Hfull]; [reflexivity |].
  destruct Hbad as [Hempty | Hparse]; [contradiction |].
  now rewrite Hparse.
Qed.

(** X17: a submit that passes the checks makes the one create request
    (or, when a row is being edited, the one update request, whose body
    has the members [fullUrl] and [shortenUrl]).  If the call fails, the
    dialog and the form stay as they are, nothing is reloaded and the
    error shown is the error's message: for a status outside 2xx, the
    generic message of the call.  If it returns, the URL list is reloaded
    at the current page (the one request is issued, and the list and its
    envelope are set from the answer), the dialog is closed and the form
    is reset.  Either way [loading] ends false. *)
Theorem url_submit_outcome (s c : UrlManagement.state) (w : world) :
  UrlForm.fullUrl (UrlManagement.formData s) <> "" ->
  URL_parses (UrlForm.fullUrl (UrlManagement.formData s)) = true ->
  let m := url_submission s in
  let w1 := after_request w (call_request API_BASE_URL w (mutation_call m)) in
  let c' := fst (url_submit network API_BASE_URL URL_parses runtime_message s (c, w)) in
  let w' := snd (url_submit network API_BASE_URL URL_parses runtime_message s (c, w)) in
  UrlManagement.loading c' = false /\
  UrlManagement.copySuccess c' = UrlManagement.copySuccess c /\
  match network (sent w1) with
  | Resolved r =>
      if ok r then
        match json r with
        | Some _ =>
            urls_reloaded network API_BASE_URL (currentUrlPage (ui w)) w1 w' /\
            UrlManagement.isDialogOpen c' = false /\
            UrlManagement.editingUrl c' = None /\
            UrlManagement.formData c' = UrlForm.empty /\
            UrlManagement.error c' = ""
        | None =>
            w' = w1 /\ UrlManagement.error c' = runtime_message SyntaxError /\
            UrlManagement.isDialogOpen c' = UrlManagement.isDialogOpen c /\
            UrlManagement.formData c' = UrlManagement.formData c
        end
      else
        w' = w1 /\
        UrlManagement.error c' = failure_message (mutation_call m) /\
        UrlManagement.isDialogOpen c' = UrlManagement.isDialogOpen c /\
        UrlManagement.formData c' = UrlManagement.formData c
  | Rejected e =>
      w' = w1 /\
      UrlManagement.error c' = UrlManagement.message_or runtime_message "Operation failed" e /\
      UrlManagement.isDialogOpen c' = UrlManagement.isDialogOpen c /\
      UrlManagement.formData c' = UrlManagement.formData c
  end.
Proof.
  intros Hfull Hparse. cbv zeta.
  unfold url_submit, UrlManagement.handleSubmit.
  destruct (String.eqb_spec (UrlForm.fullUrl (UrlManagement.formData s)) "")
    as [Hempty | _]; [contradiction |].
  rewrite Hparse. cbn [negb]. rewrite url_submit_sending.
  destruct (mutation_turn (url_submission s) w) as (Hfst & Hrest).
  assert (Hurl : is_url_mutation (url_submission s) = true).
  { unfold url_submission. now destruct (UrlManagement.editingUrl s). }
  rewrite Hurl in Hrest.
  destruct (dispatch network API_BASE_URL _ w) as [o w'] eqn:Hturn.
  cbn [fst snd] in Hfst, Hrest. subst o.
  unfold mutation_result in *.
  destruct (network _) as [r | e]; [destruct (ok r); [destruct (json r) |] |];
    cbn [fst snd]; subst;
    (split; [reflexivity |]); (split; [reflexivity |]);
    (split; [first [exact Hrest | reflexivity] |]); repeat split; reflexivity.
Qed.

(** X18: deleting a row.  Without the operator's confirmation nothing
    happens.  With it the one delete request is made; if the call fails
    the error's message is shown (for a status outside 2xx,
    ['Failed to delete URL']) and nothing is reloaded; if it returns the
    URL list is reloaded at the current page (the one request is issued,
    and the list and its envelope are set from the answer) and the error
    shown before, if any, stays.  Either way [loading] ends false. *)
Theorem url_delete_outcome (confirmed : bool) (id : string)
    (c : UrlManagement.state) (w : world) :
  let w1 := after_request w (call_request API_BASE_URL w (UrlsDelete id)) in
  let c' := fst (url_delete network API_BASE_URL runtime_message confirmed id (c, w)) in
  let w' := snd (url_delete network API_BASE_URL runtime_message confirmed id (c, w)) in
  if confirmed then
    UrlManagement.loading c' = false /\
    match mutation_result (DeleteUrl id) (network (sent w1)) with
    | Return _ =>
        urls_reloaded network API_BASE_URL (currentUrlPage (ui w)) w1 w' /\
        UrlManagement.error c' = UrlManagement.error c
    | Throw e =>
        w' = w1 /\
        UrlManagement.error c' = UrlManagement.message_or runtime_message "Delete failed" e
    end /\
    (forall r, network (sent w1) = Resolved r -> ok r = false ->
       UrlManagement.error c' = "Failed to delete URL")
  else c' = c /\ w' = w.
Proof.
  cbv zeta. unfold url_delete, UrlManagement.handleDelete.
  destruct confirmed; cbn [negb]; [| split; reflexivity].
  change (App_onDeleteUrl network API_BASE_URL id w)
    with (dispatch network API_BASE_URL
            (fun render => handle network API_BASE_URL render (DeleteUrl id)) w).
  destruct (mutation_turn (DeleteUrl id) w) as (Hfst & Hrest).
  cbn [is_url_mutation mutation_call] in Hrest.
  destruct (dispatch network API_BASE_URL _ w) as [o w'] eqn:Hturn.
  cbn [fst snd] in Hfst, Hrest. subst o.
  assert (Hstatus : forall r, network (sent (after_request w
             (call_request API_BASE_URL w (UrlsDelete id)))) = Resolved r ->
           ok r = false ->
           mutation_result (DeleteUrl id) (network (sent (after_request w
             (call_request API_BASE_URL w (UrlsDelete id)))))
           = Throw (Error "Failed to delete URL")).
  { intros r Hr Hok. unfold mutation_result. now rewrite Hr, Hok. }
  destruct (mutation_result (DeleteUrl id) _) as [[] | e] eqn:Hres; cbn [fst snd].
  - split; [reflexivity |]. split; [split; [exact Hrest | reflexivity] |].
    intros r Hr Hok. specialize (Hstatus r Hr Hok). discriminate.
  - repeat split; try assumption.
    intros r Hr Hok. specialize (Hstatus r Hr Hok). injection Hstatus as ->.
    reflexivity.
Qed.

End UrlScreen.

(** X15: the page buttons of the URL list, for integer page numbers.
    With a single page, or none, the screen shows no page button; with
    more than one page there are [min(5, totalPages)] of them.  Every
    button is a page between 1 and [totalPages], so the [null] branch is
    never taken; the buttons are consecutive; and with more than one
    page, when the current page is a page of the list, it is among them. *)
Theorem page_buttons_window (totalPages currentPage : Z) :
  ((totalPages <= 1)%Z -> UrlManagement.page_buttons totalPages currentPage = []) /\
  ((1 < totalPages)%Z ->
     length (UrlManagement.page_buttons totalPages currentPage)
       = Z.to_nat (Z.min 5 totalPages)) /\
  (forall b, In b (UrlManagement.page_buttons totalPages currentPage) ->
     exists p, b = Some p /\ (1 <= p <= totalPages)%Z) /\
  (forall i b b',
     UrlManagement.page_buttons totalPages currentPage !! i = Some b ->
     UrlManagement.page_buttons totalPages currentPage !! (S i) = Some b' ->
     exists p, b = Some p /\ b' = Some (p + 1)%Z) /\
  ((1 < totalPages)%Z -> (1 <= currentPage <= totalPages)%Z ->
     In (Some currentPage) (UrlManagement.page_buttons totalPages currentPage)).
Proof.
  unfold UrlManagement.page_buttons.
  destruct (Z.gtb_spec totalPages 1) as [Hmany | Hfew].
  2: { repeat split; intros; try lia; try discriminate; try contradiction. }
  unfold UrlManagement.page_numbers.
  set (start := (Z.max 1 (Z.min (totalPages - 4) (Z.max 1 (currentPage - 2))))%Z).
  set (n := Z.to_nat (Z.min 5 totalPages)).
  assert (Hin : forall i, (i < n)%nat ->
    (if (start + Z.of_nat i >? totalPages)%Z then None else Some (start + Z.of_nat i)%Z)
      = Some (start + Z.of_nat i)%Z /\ (1 <= start + Z.of_nat i <= totalPages)%Z).
  { intros i Hi. subst start n.
    destruct (Z.gtb_spec (Z.max 1 (Z.min (totalPages - 4) (Z.max 1 (currentPage - 2)))
                          + Z.of_nat i) totalPages); split; try reflexivity; lia. }
  split; [intros; lia |].
  split; [intros _; now rewrite length_map, length_seq |].
  split; [| split].
  - intros b Hb. apply in_map_iff in Hb as (i & <- & Hi). apply in_seq in Hi.
    destruct (Hin i) as [-> Hrange]; [lia |]. eauto.
  - intros i b b' Hb Hb'. rewrite list_lookup_fmap in Hb, Hb'.
    destruct (seq 0 n !! i) as [j |] eqn:Hj; [| discriminate].
    destruct (seq 0 n !! S i) as [j' |] eqn:Hj'; [| discriminate].
    apply lookup_seq in Hj as [-> Hi]. apply lookup_seq in Hj' as [-> Hi'].
    cbn in Hb, Hb'. injection Hb as <-. injection Hb' as <-.
    destruct (Hin i) as [-> _]; [lia |]. destruct (Hin (S i)) as [-> _]; [lia |].
    eexists; split; [reflexivity |]. f_equal. lia.
  - intros _ Hc. apply in_map_iff. exists (Z.to_nat (currentPage - start)).
    assert (Hs : (start <= currentPage < start + Z.of_nat n)%Z) by (subst start n; lia).
    split.
    + destruct (Hin (Z.to_nat (currentPage - start))) as [-> _]; [lia |].
      f_equal. lia.
    + apply in_seq. lia.
Qed.

End Screens.

(** * Preview URLs *)

Section PreviewFacts.

Variable objectURL : nat -> string.

(** X19: [revokePreviewUrl] leaves the browser's object URLs alone unless
    its argument starts with [blob:]; otherwise it removes exactly that
    URL.  Revoking twice is revoking once, and a URL that
    [createPreviewUrl] has just returned is live until it is revoked,
    provided the browser mints [blob:] URLs. *)
Theorem revokePreviewUrl_contract (url : string) (b : object_urls) :
  (String.prefix "blob:" url = false -> revokePreviewUrl url b = b) /\
  (String.prefix "blob:" url = true ->
     (live (revokePreviewUrl url b) = live b ∖ {[url]}) /\
     minted (revokePreviewUrl url b) = minted b) /\
  revokePreviewUrl url (revokePreviewUrl url b) = revokePreviewUrl url b /\
  (forall file,
     String.prefix "blob:" (objectURL (minted b)) = true ->
     let created := createPreviewUrl objectURL file b in
     (fst created ∈ live (snd created)) /\
     (fst created ∉ live (revokePreviewUrl (fst created) (snd created))) /\
     (live (revokePreviewUrl (fst created) (snd created)) = live b ∖ {[fst created]})).
Proof.
  unfold revokePreviewUrl, createPreviewUrl, URL_createObjectURL, URL_revokeObjectURL.
  split; [intros H; now rewrite H |].
  split; [intros H; rewrite H; split; reflexivity |].
  split.
  - destruct (String.prefix "blob:" url) eqn:Hp; [| reflexivity].
    cbn. f_equal. apply set_eq. intros u.
    rewrite !elem_of_difference. tauto.
  - intros file Hblob. cbn. rewrite Hblob. cbn.
    split; [apply elem_of_union_l, elem_of_singleton; reflexivity |].
    split.
    + rewrite elem_of_difference, elem_of_singleton. tauto.
    + apply set_eq. intros u.
      rewrite !elem_of_difference, elem_of_union, elem_of_singleton. tauto.
Qed.

Lemma revoke_blob_preview_clears (s : ProjectsManagement.state)
    (c : ProjectsManagement.cells) :
  tidy c -> s = fst c ->
  fst (ProjectsManagement.revoke_blob_preview s c) = fst c /\
  minted (snd (ProjectsManagement.revoke_blob_preview s c)) = minted (snd c) /\
  live (snd (ProjectsManagement.revoke_blob_preview s c)) = ∅.
Proof.
  intros Htidy ->. unfold ProjectsManagement.revoke_blob_preview.
  destruct (String.eqb_spec (ProjectsManagement.thumbnailPreview (fst c)) "")
    as [Hempty | Hfull]; cbn [negb andb].
  - repeat split. apply set_eq. intros u.
    split; [| intros Hu; now apply not_elem_of_empty in Hu].
    intros Hu. destruct (Htidy u Hu) as [-> Hblob]. rewrite Hempty in Hblob.
    discriminate.
  - unfold revokePreviewUrl, ProjectsManagement.on_urls.
    destruct (String.prefix "blob:" (ProjectsManagement.thumbnailPreview (fst c)))
      eqn:Hblob; cbn; repeat split; apply set_eq; intros u;
      (split; [| intros Hu; now apply not_elem_of_empty in Hu]); intros Hu.
    + apply elem_of_difference in Hu as [Hu Hne].
      destruct (Htidy u Hu) as [-> _]. exfalso. apply Hne, elem_of_singleton.
      reflexivity.
    + destruct (Htidy u Hu) as [-> Hb]. congruence.
Qed.

(** X20: previews and the browser's object URLs, for a browser that mints
    [blob:] URLs.  Call the form tidy when every live object URL is the
    preview it shows and starts with [blob:].  A tidy form is still tidy
    after choosing a file, typing an image URL, typing in any other field,
    opening the dialog for a new project, cancelling, or the dialog's own
    open/close.  The two handlers that replace the preview without
    revoking it, opening the dialog on an existing project and the preview
    image's [onError], keep a tidy form tidy if no object URL is live at
    that moment; [onError] with a live preview clears the preview and
    revokes nothing, so that object URL is leaked and the form is no
    longer tidy. *)
Theorem previews_stay_tidy (e : ProjectsManagement.event)
    (c : ProjectsManagement.cells) :
  (forall n, String.prefix "blob:" (objectURL n) = true) ->
  tidy c ->
  (match e with
   | ProjectsManagement.EditClicked _ | ProjectsManagement.PreviewFailed =>
       live (snd c) = ∅
   | _ => True
   end -> tidy (ProjectsManagement.fire objectURL e c)) /\
  (e = ProjectsManagement.PreviewFailed -> live (snd c) <> ∅ ->
     snd (ProjectsManagement.fire objectURL e c) = snd c /\
     ProjectsManagement.thumbnailPreview (fst (ProjectsManagement.fire objectURL e c)) = "" /\
     ~ tidy (ProjectsManagement.fire objectURL e c)).
Proof.
  intros Hblob Htidy. split.
  - intros Hquiet.
    destruct (revoke_blob_preview_clears (fst c) c Htidy eq_refl)
      as (Hfst & Hminted & Hlive).
    assert (Hvacuous : forall c' : ProjectsManagement.cells,
      live (snd c') = ∅ -> tidy c').
    { intros c' Hc' u Hu. rewrite Hc' in Hu. now apply not_elem_of_empty in Hu. }
    destruct c as [s b]. cbn [fst snd] in *.
    destruct e as [| project | | open | [file |] | url | text | text | text | text |];
      unfold ProjectsManagement.fire; cbn [fst snd].
    + apply Hvacuous.
      unfold ProjectsManagement.handleOpenDialog, ProjectsManagement.resetForm.
      cbn -[ProjectsManagement.revoke_blob_preview].
      unfold ProjectsManagement.revoke_blob_preview in *.
      destruct (_ && _); exact Hlive.
    + apply Hvacuous. cbn. exact Hquiet.
    + apply Hvacuous.
      unfold ProjectsManagement.handleCloseDialog, ProjectsManagement.resetForm.
      cbn -[ProjectsManagement.revoke_blob_preview].
      unfold ProjectsManagement.revoke_blob_preview in *.
      destruct (_ && _); exact Hlive.
    + exact Htidy.
    + unfold ProjectsManagement.handleFileChange, createPreviewUrl, URL_createObjectURL.
      cbn -[ProjectsManagement.revoke_blob_preview].
      unfold ProjectsManagement.revoke_blob_preview in *.
      destruct (_ && _); cbn in *; intros u Hu; cbn in *;
        rewrite Hlive, union_empty_r_L in Hu; apply elem_of_singleton in Hu; subst u;
        rewrite ?Hminted; split; [reflexivity || (f_equal; congruence) | apply Hblob
                                 | reflexivity || (f_equal; congruence) | apply Hblob].
    + exact Htidy.
    + apply Hvacuous.
      unfold ProjectsManagement.handleUrlChange.
      cbn -[ProjectsManagement.revoke_blob_preview].
      unfold ProjectsManagement.revoke_blob_preview in *.
      destruct (_ && _); exact Hlive.
    + exact Htidy.
    + exact Htidy.
    + exact Htidy.
    + exact Htidy.
    + apply Hvacuous. cbn. exact Hquiet.
  - intros -> Hlive. cbn. split; [reflexivity |]. split; [reflexivity |].
    intros Hafter.
    assert (Hsome : exists u, u ∈ live (snd c)).
    { apply set_choose_L. exact Hlive. }
    destruct Hsome as [u Hu].
    destruct (Hafter u Hu) as [Hempty _]. cbn in Hempty.
    destruct (Htidy u Hu) as [_ Hprefix]. rewrite Hempty in Hprefix. discriminate.
Qed.

(** X21: opening the dialog on an existing project replaces the preview
    without revoking the one shown before: if that one is a live object
    URL, it stays live although the form no longer shows it, so it is
    leaked. *)
Theorem edit_click_leaks_preview (project : Project.t) (c : ProjectsManagement.cells) :
  ProjectsManagement.thumbnailPreview (fst c) ∈ live (snd c) ->
  Project.thumbnail project <> ProjectsManagement.thumbnailPreview (fst c) ->
  let c' := ProjectsManagement.fire objectURL (ProjectsManagement.EditClicked project) c in
  snd c' = snd c /\
  ProjectsManagement.thumbnailPreview (fst c') = Project.thumbnail project /\
  (ProjectsManagement.thumbnailPreview (fst c) ∈ live (snd c')) /\
  ~ tidy c'.
Proof.
  intros Hlive Hne. cbv zeta. cbn.
  repeat split; try assumption.
  intros Htidy. destruct (Htidy _ Hlive) as [Heq _]. cbn in Heq. congruence.
Qed.

Lemma fire_keeps_exclusive (e : ProjectsManagement.event) (c : ProjectsManagement.cells) :
  exclusive (fst c) -> exclusive (fst (ProjectsManagement.fire objectURL e c)).
Proof.
  intros Hex. destruct c as [s b]. unfold exclusive in *. cbn [fst] in *.
  destruct e as [| project | | open | [file |] | url | text | text | text | text |];
    unfold ProjectsManagement.fire, ProjectsManagement.handleOpenDialog,
      ProjectsManagement.handleCloseDialog, ProjectsManagement.resetForm,
      ProjectsManagement.handleFileChange, ProjectsManagement.handleUrlChange,
      ProjectsManagement.revoke_blob_preview;
    cbn [fst snd]; try destruct (_ && _); cbn; try congruence; try assumption.
Qed.

(** X22: a chosen file and a typed image URL never coexist in the form:
    starting from the initial state, after any sequence of form events
    (open, edit, cancel, dismiss, choose a file, type a URL, type in a
    field, the preview image failing to load), if a file is selected then
    the image URL field is empty. *)
Theorem file_and_url_never_coexist (events : list ProjectsManagement.event)
    (b : object_urls) :
  exclusive
    (fst (fold_left (fun c e => ProjectsManagement.fire objectURL e c) events
            (ProjectsManagement.initial, b))).
Proof.
  assert (Hgen : forall c, exclusive (fst c) ->
    exclusive (fst (fold_left (fun c e => ProjectsManagement.fire objectURL e c)
                      events c))).
  { induction events as [| e events IH]; intros c Hc; [exact Hc |].
    cbn [fold_left]. apply IH. now apply fire_keeps_exclusive. }
  apply Hgen. intros Hfile. cbn in Hfile. congruence.
Qed.

End PreviewFacts.

(** ** The projects screen *)

Section ProjectScreen.

Context {Num : Number}.
Variable network : list request -> fetch_result.
Variable API_BASE_URL : string.
Variable runtime_message : exn -> string.


(** X23: the project form is checked before anything is sent: with an
    empty title or an empty description a submit issues no request and
    changes nothing but the error message. *)
Theorem project_submit_validates (s : ProjectsManagement.state)
    (c : ProjectsManagement.cells) (w : world) :
  ProjectForm.title (ProjectsManagement.formData s) = "" \/
  ProjectForm.description (ProjectsManagement.formData s) = "" ->
  project_submit network API_BASE_URL runtime_message s (c, w) =
    (ProjectsManagement.setError "Please fill in all required fields" c, w).
Proof.
  intros Hbad. unfold project_submit, ProjectsManagement.handleSubmit.
  destruct (String.eqb_spec (ProjectForm.title (ProjectsManagement.formData s)) "");
    [reflexivity |].
  destruct (String.eqb_spec (ProjectForm.description (ProjectsManagement.formData s)) "");
    [reflexivity |].
  destruct Hbad; contradiction.
Qed.


End ProjectScreen.

(** * The further statements on concrete inputs *)

Lemma createHeaders_merges_witness :
  exists h,
    createHeaders {["X-Trace" := "1"]} false returning_world = (Return h, returning_world) /\
    h !! "X-Trace" = Some "1".
Proof.
  destruct (createHeaders_merges {["X-Trace" := "1"]} false returning_world)
    as (h & Hrun & Hkeep & _).
  exists h. split; [exact Hrun |].
  rewrite Hkeep by discriminate. reflexivity.
Defined.

Lemma list_calls_default_to_empty_witness :
  fst (projectsAPI_getAll demo_server localhost fresh_world) = Return (VArr []).
Proof.
  apply (proj2 (list_calls_default_to_empty demo_server localhost
                  (projectsAPI_getAll demo_server localhost) fresh_world
                  (or_introl eq_refl))
           {| status := 200; text := ""; json := Some (VObj [("data", VArr [])]) |}
           (VObj [("data", VArr [])]) (VArr []));
    reflexivity.
Defined.

Lemma payload_decides_content_type_witness :
  content_type (call_request localhost returning_world
                  (ProjectsCreate (Multipart [("title", FormText "Portfolio")]))) = None.
Proof.
  apply (payload_decides_content_type demo_server localhost
           (ProjectsCreate (Multipart [("title", FormText "Portfolio")]))
           (Multipart [("title", FormText "Portfolio")]) returning_world
           (or_introl eq_refl)).
Defined.

Lemma nested_without_pagination_is_legacy_witness :
  urlAPI_normalize (int 3) nested_two_urls =
    urlAPI_normalize (int 3) (VArr [VStr "a"; VStr "b"]).
Proof.
  apply (nested_without_pagination_is_legacy (int 3) nested_two_urls (VBool true)
           (VObj [("urls", VArr [VStr "a"; VStr "b"])]) VUndefined
           [VStr "a"; VStr "b"]);
    reflexivity.
Defined.


Lemma uploadImage_reports_server_text_witness :
  fst (uploadImage failing_server exactly_5MiB_png fresh_world) =
    Throw (Error
      "Upload failed: 500 E11000 duplicate key error collection: portfolio.projects").
Proof.
  apply (uploadImage_reports_server_text failing_server exactly_5MiB_png fresh_world
           {| status := 500;
              text := "E11000 duplicate key error collection: portfolio.projects";
              json := Some (VObj [("error", VStr "E11000 duplicate key error")]) |});
    reflexivity.
Defined.

Lemma uploadImage_returns_url_witness :
  fst (uploadImage upload_server exactly_5MiB_png returning_world) =
    Return (VStr "https://cdn.example.com/p.png").
Proof.
  apply (proj1 (proj2 (uploadImage_returns_url upload_server exactly_5MiB_png
                         returning_world)
                  {| status := 200; text := "";
                     json := Some (VObj [("url", VStr "https://cdn.example.com/p.png")]) |}
                  (VObj [("url", VStr "https://cdn.example.com/p.png")])
                  (VStr "https://cdn.example.com/p.png")
                  eq_refl eq_refl eq_refl eq_refl eq_refl));
    reflexivity.
Defined.

Lemma page_change_is_remembered_witness :
  let w1 := snd (dispatch (backend true) localhost
                   (fun _ => handleUrlPageChange (backend true) localhost (int 2))
                   (on_screen (backend true) "urls")) in
  let w2 := snd (dispatch (backend true) localhost
                   (fun render => handle (backend true) localhost render (DeleteUrl "66f0"))
                   w1) in
  issued (snd (perform (backend true) localhost (UrlsDelete "66f0") w1)) w2
    = reload_urls localhost (int 2) /\
  urls (ui w2) = [blog_url].
Proof.
  pose proof (proj2 (proj2 (proj2
                (page_change_is_remembered (backend true) localhost (int 2)
                   (on_screen (backend true) "urls"))))
                (DeleteUrl "66f0") eq_refl eq_refl) as (Hissued & Hurls & _).
  split; [exact Hissued |]. rewrite Hurls. vm_compute. reflexivity.
Defined.

Lemma mount_restores_session_witness :
  issued returning_world (snd (mount demo_server localhost returning_world))
    = reload_all localhost (int 1).
Proof.
  pose proof (mount_restores_session demo_server localhost returning_world eq_refl)
    as (_ & _ & H).
  destruct (decide (localStorage returning_world !! "isAuthenticated" = Some "true"))
    as [_ | Hno]; [exact (proj2 H) | exfalso; apply Hno; reflexivity].
Defined.

Lemma page_buttons_window_witness :
  In (Some 7%Z) (UrlManagement.page_buttons 10 7).
Proof.
  apply (proj2 (proj2 (proj2 (proj2 (page_buttons_window 10 7))))); lia.
Defined.

Lemma url_submit_validates_witness :
  url_submit demo_server localhost http_only engine_text
    UrlManagement.initial (UrlManagement.initial, fresh_world) =
  (UrlManagement.setError "Please enter a URL to shorten" UrlManagement.initial,
   fresh_world).
Proof.
  apply (url_submit_validates demo_server localhost http_only engine_text
           UrlManagement.initial UrlManagement.initial fresh_world).
  left. reflexivity.
Defined.

Lemma url_submit_outcome_witness :
  urls (ui (snd (url_submit (backend true) localhost http_only engine_text
                   typed_url_form (typed_url_form, on_screen (backend true) "urls"))))
    = [docs_url; blog_url; made_url].
Proof.
  pose proof (url_submit_outcome (backend true) localhost http_only engine_text
                typed_url_form typed_url_form (on_screen (backend true) "urls")
                ltac:(discriminate) eq_refl) as H.
  cbv zeta in H. destruct H as (_ & _ & H).
  match type of H with
  | context [match ?answer with Resolved _ => _ | Rejected _ => _ end] =>
      let v := eval vm_compute in answer in change answer with v in H
  end.
  lazy beta iota delta [ok status json andb Nat.leb] in H.
  destruct H as ((_ & Hurls & _) & _).
  rewrite Hurls. vm_compute. reflexivity.
Defined.

Lemma revokePreviewUrl_contract_witness :
  fst (createPreviewUrl numbered_blobs exactly_5MiB_png no_urls)
    ∉ live (revokePreviewUrl
              (fst (createPreviewUrl numbered_blobs exactly_5MiB_png no_urls))
              (snd (createPreviewUrl numbered_blobs exactly_5MiB_png no_urls))).
Proof.
  apply (proj2 (proj2 (proj2 (revokePreviewUrl_contract numbered_blobs "blob:0" no_urls)))
           exactly_5MiB_png).
  reflexivity.
Defined.

Lemma previews_stay_tidy_witness :
  ~ tidy (ProjectsManagement.fire numbered_blobs ProjectsManagement.PreviewFailed
            broken_preview).
Proof.
  assert (Hblob : forall n, String.prefix "blob:" (numbered_blobs n) = true).
  { intros n. unfold numbered_blobs. cbn. now destruct (pretty n). }
  assert (Hopened : tidy (ProjectsManagement.fire numbered_blobs
                            ProjectsManagement.NewClicked
                            (ProjectsManagement.initial, no_urls))).
  { intros u Hu. exfalso. revert Hu. apply not_elem_of_empty. }
  assert (Htidy : tidy broken_preview).
  { apply (proj1 (previews_stay_tidy numbered_blobs
                    (ProjectsManagement.FileChosen (Some exactly_5MiB_png))
                    _ Hblob Hopened)).
    exact I. }
  apply (proj2 (previews_stay_tidy numbered_blobs ProjectsManagement.PreviewFailed
                  broken_preview Hblob Htidy) eq_refl).
  intros Hnone. apply (not_elem_of_empty (C := gset string) "blob:0").
  rewrite <- Hnone. apply elem_of_union_l, elem_of_singleton. reflexivity.
Defined.

Lemma edit_click_leaks_preview_witness :
  ~ tidy (ProjectsManagement.fire numbered_blobs
            (ProjectsManagement.EditClicked sample_project) dismissed_with_preview).
Proof.
  apply (edit_click_leaks_preview numbered_blobs sample_project dismissed_with_preview).
  - apply elem_of_union_l, elem_of_singleton. reflexivity.
  - discriminate.
Defined.

Lemma project_submit_validates_witness :
  project_submit demo_server localhost engine_text ProjectsManagement.initial
    ((ProjectsManagement.initial, no_urls), fresh_world) =
  (ProjectsManagement.setError "Please fill in all required fields"
     (ProjectsManagement.initial, no_urls), fresh_world).
Proof.
  apply (project_submit_validates demo_server localhost engine_text
           ProjectsManagement.initial (ProjectsManagement.initial, no_urls) fresh_world).
  left. reflexivity.
Defined.


Lemma uploadImage_bypasses_wrapper_witness :
  localStorage (snd (uploadImage upload_server exactly_5MiB_png returning_world))
    = localStorage returning_world.
Proof.
  apply (uploadImage_bypasses_wrapper upload_server exactly_5MiB_png returning_world).
Defined.

Lemma url_delete_outcome_witness :
  urls (ui (snd (url_delete (backend true) localhost engine_text true "66f0"
                   (typed_url_form, on_screen (backend true) "urls"))))
    = [blog_url].
Proof.
  pose proof (url_delete_outcome (backend true) localhost engine_text true "66f0"
                typed_url_form (on_screen (backend true) "urls")) as H.
  cbv zeta in H. destruct H as (_ & H & _).
  match type of H with
  | context [match ?result with Return _ => _ | Throw _ => _ end] =>
      let v := eval vm_compute in result in change result with v in H
  end.
  lazy beta iota in H. destruct H as ((_ & Hurls & _) & _).
  rewrite Hurls. vm_compute. reflexivity.
Defined.

Lemma login_storage_witness :
  fst (authAPI_login odd_token_server localhost "admin@example.com" "secret"
         returning_world) = Throw TypeError /\
  localStorage (snd (authAPI_login odd_token_server localhost "admin@example.com"
                       "secret" returning_world))
    = localStorage returning_world.
Proof.
  apply (proj2 (proj2 (login_storage odd_token_server localhost "admin@example.com"
                         "secret" returning_world))
           (json_ok (VObj [("token", odd_token)])) (VObj [("token", odd_token)])
           odd_token TypeError);
    reflexivity.
Defined.
